(** * CRM demo service ([crm_sample.py]): a shallow embedding and its properties

    The service keeps three Python dictionaries (customers, products, service
    records) in one [CRMData] object and exposes handlers over them.  The
    handlers are embedded below as computations in a small state-and-exception
    monad over the store; [date.today()] is an explicit argument, and the
    [Depends(get_current_user)] argument, which no handler body reads, is left
    out.  Request records hold the field values of the parsed pydantic
    models; an [int] is a [Z], a [str] the string of its UTF-8 bytes. *)

From Stdlib Require Import ZArith List Bool Lia.
From Stdlib Require Import Ascii String.
From Stdlib Require DecimalString DecimalPos DecimalN.
From Stdlib Require Import PrimFloat.
Import ListNotations.
Open Scope string_scope.

Set Implicit Arguments.

(** ** Python values used by the service *)

(** Truthiness of a [str] and of an [Optional[str]]: [None] and the empty
    string are falsy. *)
Definition str_truthy (s : string) : bool :=
  match s with
  | EmptyString => false
  | String _ _ => true
  end.

Definition opt_str_truthy (o : option string) : bool :=
  match o with
  | None => false
  | Some s => str_truthy s
  end.

(** [s != o] for a [str] and an [Optional[str]] *)
Definition differs (s : string) (o : option string) : bool :=
  match o with
  | None => true
  | Some s' => negb (String.eqb s s')
  end.

(** *** Insertion-ordered dictionaries with [str] keys

    A Python [dict] keeps its keys in insertion order; assigning to an
    existing key keeps the key's position and replaces the value. *)
Module Dict.

Definition t (V : Type) : Type := list (string * V).

Definition empty {V} : t V := [].

Fixpoint get {V} (d : t V) (k : string) : option V :=
  match d with
  | [] => None
  | (k', v) :: rest => if String.eqb k' k then Some v else get rest k
  end.

Fixpoint set {V} (d : t V) (k : string) (v : V) : t V :=
  match d with
  | [] => [(k, v)]
  | (k', v') :: rest =>
      if String.eqb k' k then (k', v) :: rest else (k', v') :: set rest k v
  end.

Definition keys {V} (d : t V) : list string := map fst d.
Definition values {V} (d : t V) : list V := map snd d.
Definition len {V} (d : t V) : nat := List.length d.

(** Keys of a dictionary are pairwise distinct. *)
Definition wf {V} (d : t V) : Prop := NoDup (keys d).

End Dict.

(** *** [datetime.date]

    Comparison of dates is comparison of the [(year, month, day)] triples;
    subtraction yields a [timedelta] whose [days] is the difference of the
    proleptic Gregorian ordinals ([date.toordinal]). *)
Record date : Type := mk_date { year : Z; month : Z; day : Z }.

Definition DAYS_IN_MONTH : list Z :=
  [-1; 31; 28; 31; 30; 31; 30; 31; 31; 30; 31; 30; 31]%Z.

Definition DAYS_BEFORE_MONTH : list Z :=
  [-1; 0; 31; 59; 90; 120; 151; 181; 212; 243; 273; 304; 334]%Z.

Definition is_leap (y : Z) : bool :=
  ((y mod 4 =? 0) && (negb (y mod 100 =? 0) || (y mod 400 =? 0)))%Z.

(** The extra day of a leap year, as a number. *)
Definition leap_day (y : Z) : Z := if is_leap y then 1 else 0.

Definition days_before_year (y : Z) : Z :=
  let y' := (y - 1)%Z in
  (y' * 365 + y' / 4 - y' / 100 + y' / 400)%Z.

Definition days_in_month (y m : Z) : Z :=
  if ((m =? 2)%Z && is_leap y)%bool then 29%Z
  else nth (Z.to_nat m) DAYS_IN_MONTH (-1)%Z.

Definition days_before_month (y m : Z) : Z :=
  (nth (Z.to_nat m) DAYS_BEFORE_MONTH (-1)
   + (if ((2 <? m) && is_leap y)%bool then 1 else 0))%Z.

Definition ymd2ord (y m d : Z) : Z :=
  (days_before_year y + days_before_month y m + d)%Z.

Definition toordinal (d : date) : Z := ymd2ord (year d) (month d) (day d).

(** The checks made by the [date] constructor ([_check_date_fields]); every
    [date] object the service holds passed them. *)
Definition check_date_fields (y m d : Z) : bool :=
  ((1 <=? y) && (y <=? 9999) && (1 <=? m) && (m <=? 12)
   && (1 <=? d) && (d <=? days_in_month y m))%Z.

Definition valid_date (d : date) : Prop :=
  check_date_fields (year d) (month d) (day d) = true.

Definition date_ltb (a b : date) : bool :=
  ((year a <? year b)
   || ((year a =? year b)
       && ((month a <? month b)
           || ((month a =? month b) && (day a <? day b)))))%Z.

(** [(a - b).days] *)
Definition date_sub_days (a b : date) : Z := (toordinal a - toordinal b)%Z.

(** [datetime.datetime], carried through the service without computation. *)
Record datetime : Type := mk_datetime {
  dt_date : date;
  dt_hour : Z;
  dt_minute : Z;
  dt_second : Z
}.

(** *** [format(n, "03d")]

    The decimal digits of [n], after the sign, padded on the left with zeros
    up to a total width of three characters. *)
Definition decimal (n : Z) : string :=
  DecimalString.NilZero.string_of_uint (N.to_uint (Z.abs_N n)).

Fixpoint zeros (k : nat) : string :=
  match k with
  | O => EmptyString
  | S k' => String "0" (zeros k')
  end.

Definition format_0d (width : nat) (n : Z) : string :=
  let sign := if (n <? 0)%Z then "-" else EmptyString in
  let digits := decimal n in
  sign ++ zeros (width - String.length sign - String.length digits) ++ digits.

Definition format_03d (n : Z) : string := format_0d 3 n.

(** *** [re.match] for the constructs of the serial-number pattern

    A pattern is a sequence of nodes: [^], [$] (without [re.MULTILINE]) and a
    greedy bounded repetition of a character class given by ranges.
    [re.match] anchors the search at the first character and does not ask the
    pattern to reach the end of the string; the handler only tests the result
    for truth, so the matcher returns whether some match exists.  Strings are
    UTF-8 bytes here: the classes in use hold ASCII characters only, which no
    byte of a longer code point falls into. *)
Module Re.

Inductive node : Type :=
| AT_BEGINNING
| AT_END
| MAX_REPEAT (lo hi : nat) (ranges : list (ascii * ascii)).

Definition in_class (ranges : list (ascii * ascii)) (c : ascii) : bool :=
  existsb (fun r => (nat_of_ascii (fst r) <=? nat_of_ascii c)%nat
                    && (nat_of_ascii c <=? nat_of_ascii (snd r))%nat) ranges.

(** [$] matches at the end of the string and just before a newline that is
    the last character. *)
Definition at_end (s : string) : bool :=
  match s with
  | EmptyString => true
  | String c EmptyString => Ascii.eqb c "010"
  | _ => false
  end.

(** [repeat k ranges lo room at_start s]: take up to [room] characters of
    the class, the longest run first, at least [lo] of them, then continue
    with [k]. *)
Fixpoint repeat (k : bool -> string -> bool) (ranges : list (ascii * ascii))
  (lo room : nat) (at_start : bool) (s : string) : bool :=
  let stop := (lo =? 0)%nat && k at_start s in
  match room with
  | O => stop
  | S room' =>
      match s with
      | EmptyString => stop
      | String c s' =>
          if in_class ranges c
          then repeat k ranges (Nat.pred lo) room' false s' || stop
          else stop
      end
  end.

Fixpoint match_here (p : list node) (at_start : bool) (s : string) : bool :=
  match p with
  | [] => true
  | AT_BEGINNING :: p' => at_start && match_here p' at_start s
  | AT_END :: p' => at_end s && match_here p' at_start s
  | MAX_REPEAT lo hi ranges :: p' =>
      repeat (match_here p') ranges lo hi at_start s
  end.

Fixpoint all_in_class (ranges : list (ascii * ascii)) (s : string) : bool :=
  match s with
  | EmptyString => true
  | String c s' => in_class ranges c && all_in_class ranges s'
  end.

(** Truth value of [re.match(p, s)]. *)
Definition match_ (p : list node) (s : string) : bool := match_here p true s.

End Re.

(** *** [EmailStr]

    The type of [customer_email].  Before the handler runs, pydantic (with
    the email-validator package) checks the string of the request: it either
    rejects it, and the request is answered with status 422, or hands the
    handler the address in normalised form.  The library is not part of the
    repository; [validate_plain] gives its answer on the strings where it is
    beyond doubt, and says nothing ([None]) on every other string:
    - a string without an at-sign is rejected;
    - a plain address (a local part of lower-case letters and digits in
      groups separated by single dots, one at-sign, a domain of two or more
      dot-separated labels of letters and digits that start with a letter
      and end in [com] in any case, at most 64 characters in all) is accepted
      and normalised by putting the domain in lower case. *)
Module EmailStr.

Inductive outcome : Type :=
| Parsed (normalized : string)
| Rejected.

Definition is_lower (c : ascii) : bool :=
  (97 <=? nat_of_ascii c)%nat && (nat_of_ascii c <=? 122)%nat.

Definition is_upper (c : ascii) : bool :=
  (65 <=? nat_of_ascii c)%nat && (nat_of_ascii c <=? 90)%nat.

Definition is_digit (c : ascii) : bool :=
  (48 <=? nat_of_ascii c)%nat && (nat_of_ascii c <=? 57)%nat.

Definition to_lower (c : ascii) : ascii :=
  if is_upper c then ascii_of_nat (nat_of_ascii c + 32) else c.

Fixpoint lower (s : string) : string :=
  match s with
  | EmptyString => EmptyString
  | String c s' => String (to_lower c) (lower s')
  end.

Fixpoint all_chars (test : ascii -> bool) (s : string) : bool :=
  match s with
  | EmptyString => true
  | String c s' => test c && all_chars test s'
  end.

(** The parts of a string before and after its first [sep]. *)
Fixpoint split_first (sep : ascii) (s : string) : option (string * string) :=
  match s with
  | EmptyString => None
  | String c s' =>
      if Ascii.eqb c sep then Some (EmptyString, s')
      else match split_first sep s' with
           | Some (before, after) => Some (String c before, after)
           | None => None
           end
  end.

(** The pieces of a string between its dots. *)
Fixpoint labels (s : string) : list string :=
  match s with
  | EmptyString => [EmptyString]
  | String c s' =>
      if Ascii.eqb c "."
      then EmptyString :: labels s'
      else match labels s' with
           | l :: rest => String c l :: rest
           | [] => [String c EmptyString]
           end
  end.

Definition plain_local (local : string) : bool :=
  forallb (fun l => str_truthy l
                    && all_chars (fun c => is_lower c || is_digit c) l)
          (labels local).

Definition plain_label (l : string) : bool :=
  match l with
  | EmptyString => false
  | String c _ =>
      (is_lower c || is_upper c)
      && all_chars (fun c => is_lower c || is_upper c || is_digit c) l
  end.

Definition plain_domain (domain : string) : bool :=
  (2 <=? List.length (labels domain))%nat
  && forallb plain_label (labels domain)
  && String.eqb (lower (last (labels domain) EmptyString)) "com".

Definition validate_plain (raw : string) : option outcome :=
  match split_first "@" raw with
  | None => Some Rejected
  | Some (local, domain) =>
      if plain_local local && plain_domain domain
         && (String.length raw <=? 64)%nat
      then Some (Parsed (local ++ "@" ++ lower domain))
      else None
  end.

End EmailStr.

(** ** Data model *)

Module Customer.
Record t : Type := make {
  customer_id : string;
  name : string;
  email : string;
  phone : string;
  address : string;
  registration_date : date;
  date_of_birth : option date;
  notes : option string;
  total_purchases : Z;
  lifetime_value : float;
  support_cases_count : Z;
  communication_preferences : list string
}.
End Customer.

Module Product.
Record t : Type := make {
  product_id : string;
  serial_number : string;
  product_name : string;
  customer_id : string;
  purchase_date : date;
  warranty_end_date : date;
  warranty_type : string;
  status : string
}.
End Product.

Module ServiceRecord.
Record t : Type := make {
  record_id : string;
  serial_number : string;
  customer_id : string;
  service_date : datetime;
  service_type : string;
  description : string;
  technician : string;
  status : string;
  estimated_duration : Z;
  actual_duration : option Z;
  notes : option string
}.

(** Attribute assignment on a record object. *)
Definition set_service_date (v : datetime) (r : t) : t :=
  make (record_id r) (serial_number r) (customer_id r) v (service_type r)
       (description r) (technician r) (status r) (estimated_duration r)
       (actual_duration r) (notes r).

Definition set_status (v : string) (r : t) : t :=
  make (record_id r) (serial_number r) (customer_id r) (service_date r)
       (service_type r) (description r) (technician r) v
       (estimated_duration r) (actual_duration r) (notes r).

Definition set_actual_duration (v : option Z) (r : t) : t :=
  make (record_id r) (serial_number r) (customer_id r) (service_date r)
       (service_type r) (description r) (technician r) (status r)
       (estimated_duration r) v (notes r).

Definition set_notes (v : option string) (r : t) : t :=
  make (record_id r) (serial_number r) (customer_id r) (service_date r)
       (service_type r) (description r) (technician r) (status r)
       (estimated_duration r) (actual_duration r) v.
End ServiceRecord.

(** [class ServiceStatus(str, Enum)]: a member is a [str] equal to its
    value. *)
Module ServiceStatus.
Inductive t : Type := SCHEDULED | COMPLETED | CANCELLED.

Definition value (s : t) : string :=
  match s with
  | SCHEDULED => "scheduled"
  | COMPLETED => "completed"
  | CANCELLED => "cancelled"
  end.
End ServiceStatus.

(** *** Requests and responses *)

Module WarrantyQuery.
Record t : Type := make {
  serial_number : string;
  customer_email : option string
}.

(** [r'^[A-Z0-9]{8,20}$'] *)
Definition SERIAL_PATTERN : list Re.node :=
  [Re.AT_BEGINNING;
   Re.MAX_REPEAT 8 20 [("A"%char, "Z"%char); ("0"%char, "9"%char)];
   Re.AT_END].

(** The field validator: [inl] is the [ValueError] it raises. *)
Definition validate_serial_number (v : string) : string + string :=
  if negb (Re.match_ SERIAL_PATTERN v)
  then inl "Serial number must be 8-20 alphanumeric characters"
  else inr v.
End WarrantyQuery.

Module ServiceRecordCreate.
Record t : Type := make {
  serial_number : string;
  service_type : string;
  description : string;
  technician : string;
  service_date : datetime;
  estimated_duration : Z
}.
End ServiceRecordCreate.

Module ServiceRecordUpdate.
Record t : Type := make {
  service_date : option datetime;
  status : option ServiceStatus.t;
  actual_duration : option Z;
  notes : option string
}.
End ServiceRecordUpdate.

Module WarrantyResponse.
Record t : Type := make {
  product_name : string;
  serial_number : string;
  customer_name : string;
  purchase_date : date;
  warranty_end_date : date;
  warranty_type : string;
  status_text : string
}.
End WarrantyResponse.

(** ** The store *)

Record CRMData : Type := mk_CRMData {
  customers : Dict.t Customer.t;
  products : Dict.t Product.t;
  service_records : Dict.t ServiceRecord.t
}.

(** *** Sample data loaded at start-up ([CRMData._initialize_sample_data]) *)

Definition customers_data : list Customer.t :=
  [
    {| Customer.customer_id := "CUST001";
       Customer.name := "张明";
       Customer.email := "zhang.ming@example.com";
       Customer.phone := "+86-138-0011-2233";
       Customer.address := "北京市朝阳区建国门外大街1号";
       Customer.registration_date := (mk_date 2022 3 15);
       Customer.date_of_birth := (Some (mk_date 1985 8 20));
       Customer.notes := (Some "优质客户，经常购买高端产品");
       Customer.total_purchases := 3;
       Customer.lifetime_value := 28500.0%float;
       Customer.support_cases_count := 2;
       Customer.communication_preferences := ["email"; "sms"] |};
    {| Customer.customer_id := "CUST002";
       Customer.name := "李华";
       Customer.email := "li.hua@example.com";
       Customer.phone := "+86-139-0022-3344";
       Customer.address := "上海市浦东新区陆家嘴金融中心";
       Customer.registration_date := (mk_date 2023 1 10);
       Customer.date_of_birth := (Some (mk_date 1990 5 15));
       Customer.notes := (Some "企业客户，批量采购");
       Customer.total_purchases := 5;
       Customer.lifetime_value := 42000.0%float;
       Customer.support_cases_count := 1;
       Customer.communication_preferences := ["email"; "wechat"] |};
    {| Customer.customer_id := "CUST003";
       Customer.name := "王芳";
       Customer.email := "wang.fang@example.com";
       Customer.phone := "+86-137-0033-4455";
       Customer.address := "广州市天河区珠江新城";
       Customer.registration_date := (mk_date 2022 11 5);
       Customer.date_of_birth := (Some (mk_date 1988 12 3));
       Customer.notes := (Some "个人用户，偏好智能家居产品");
       Customer.total_purchases := 2;
       Customer.lifetime_value := 12800.0%float;
       Customer.support_cases_count := 0;
       Customer.communication_preferences := ["sms"; "phone"] |};
    {| Customer.customer_id := "CUST004";
       Customer.name := "陈强";
       Customer.email := "chen.qiang@example.com";
       Customer.phone := "+86-136-0044-5566";
       Customer.address := "深圳市南山区科技园";
       Customer.registration_date := (mk_date 2023 6 20);
       Customer.date_of_birth := (Some (mk_date 1992 7 18));
       Customer.notes := (Some "科技爱好者，喜欢最新产品");
       Customer.total_purchases := 4;
       Customer.lifetime_value := 35600.0%float;
       Customer.support_cases_count := 3;
       Customer.communication_preferences := ["email"; "app"] |};
    {| Customer.customer_id := "CUST005";
       Customer.name := "刘婷";
       Customer.email := "liu.ting@example.com";
       Customer.phone := "+86-135-0055-6677";
       Customer.address := "杭州市西湖区文三路";
       Customer.registration_date := (mk_date 2022 8 12);
       Customer.date_of_birth := (Some (mk_date 1987 3 25));
       Customer.notes := (Some "电商客户，经常在线购物");
       Customer.total_purchases := 3;
       Customer.lifetime_value := 19200.0%float;
       Customer.support_cases_count := 1;
       Customer.communication_preferences := ["email"; "sms"; "wechat"] |}
  ]%Z.

Definition products_data : list Product.t :=
  [
    {| Product.product_id := "PROD001";
       Product.serial_number := "SN20240001";
       Product.product_name := "智能电视 65寸";
       Product.customer_id := "CUST001";
       Product.purchase_date := (mk_date 2023 12 10);
       Product.warranty_end_date := (mk_date 2025 12 10);
       Product.warranty_type := "standard";
       Product.status := "active" |};
    {| Product.product_id := "PROD002";
       Product.serial_number := "SN20240002";
       Product.product_name := "智能音箱 Pro";
       Product.customer_id := "CUST001";
       Product.purchase_date := (mk_date 2023 8 15);
       Product.warranty_end_date := (mk_date 2024 8 15);
       Product.warranty_type := "extended";
       Product.status := "active" |};
    {| Product.product_id := "PROD003";
       Product.serial_number := "SN20240003";
       Product.product_name := "笔记本电脑 X1";
       Product.customer_id := "CUST002";
       Product.purchase_date := (mk_date 2024 1 20);
       Product.warranty_end_date := (mk_date 2025 1 20);
       Product.warranty_type := "premium";
       Product.status := "active" |};
    {| Product.product_id := "PROD004";
       Product.serial_number := "SN20240004";
       Product.product_name := "平板电脑 T8";
       Product.customer_id := "CUST002";
       Product.purchase_date := (mk_date 2023 11 5);
       Product.warranty_end_date := (mk_date 2024 11 5);
       Product.warranty_type := "standard";
       Product.status := "active" |};
    {| Product.product_id := "PROD005";
       Product.serial_number := "SN20240005";
       Product.product_name := "智能手表 S3";
       Product.customer_id := "CUST003";
       Product.purchase_date := (mk_date 2023 9 18);
       Product.warranty_end_date := (mk_date 2024 9 18);
       Product.warranty_type := "standard";
       Product.status := "active" |};
    {| Product.product_id := "PROD006";
       Product.serial_number := "SN20240006";
       Product.product_name := "无线耳机 E2";
       Product.customer_id := "CUST003";
       Product.purchase_date := (mk_date 2023 6 22);
       Product.warranty_end_date := (mk_date 2024 6 22);
       Product.warranty_type := "standard";
       Product.status := "expired" |};
    {| Product.product_id := "PROD007";
       Product.serial_number := "SN20240007";
       Product.product_name := "游戏主机 G5";
       Product.customer_id := "CUST004";
       Product.purchase_date := (mk_date 2024 2 14);
       Product.warranty_end_date := (mk_date 2025 2 14);
       Product.warranty_type := "extended";
       Product.status := "active" |};
    {| Product.product_id := "PROD008";
       Product.serial_number := "SN20240008";
       Product.product_name := "VR头盔 V2";
       Product.customer_id := "CUST004";
       Product.purchase_date := (mk_date 2023 10 30);
       Product.warranty_end_date := (mk_date 2024 10 30);
       Product.warranty_type := "standard";
       Product.status := "active" |};
    {| Product.product_id := "PROD009";
       Product.serial_number := "SN20240009";
       Product.product_name := "数码相机 C9";
       Product.customer_id := "CUST005";
       Product.purchase_date := (mk_date 2023 7 8);
       Product.warranty_end_date := (mk_date 2024 7 8);
       Product.warranty_type := "standard";
       Product.status := "active" |};
    {| Product.product_id := "PROD010";
       Product.serial_number := "SN20240010";
       Product.product_name := "打印机 P3";
       Product.customer_id := "CUST005";
       Product.purchase_date := (mk_date 2023 4 12);
       Product.warranty_end_date := (mk_date 2024 4 12);
       Product.warranty_type := "extended";
       Product.status := "active" |}
  ]%Z.

Definition service_records_data : list ServiceRecord.t :=
  [
    {| ServiceRecord.record_id := "SRV001";
       ServiceRecord.serial_number := "SN20240001";
       ServiceRecord.customer_id := "CUST001";
       ServiceRecord.service_date := (mk_datetime (mk_date 2024 1 15) 10 0 0);
       ServiceRecord.service_type := "屏幕维修";
       ServiceRecord.description := "屏幕出现竖线";
       ServiceRecord.technician := "王师傅";
       ServiceRecord.status := "completed";
       ServiceRecord.estimated_duration := 120;
       ServiceRecord.actual_duration := (Some 110);
       ServiceRecord.notes := (Some "更换屏幕面板，测试正常") |};
    {| ServiceRecord.record_id := "SRV002";
       ServiceRecord.serial_number := "SN20240003";
       ServiceRecord.customer_id := "CUST002";
       ServiceRecord.service_date := (mk_datetime (mk_date 2024 3 20) 14 30 0);
       ServiceRecord.service_type := "系统升级";
       ServiceRecord.description := "操作系统升级服务";
       ServiceRecord.technician := "李工程师";
       ServiceRecord.status := "scheduled";
       ServiceRecord.estimated_duration := 60;
       ServiceRecord.actual_duration := None;
       ServiceRecord.notes := None |}
  ]%Z.

(** [for x in data: d[key(x)] = x] *)
Definition load {V} (key : V -> string) (data : list V) (d : Dict.t V)
  : Dict.t V :=
  fold_left (fun acc x => Dict.set acc (key x) x) data d.

Definition crm_data : CRMData :=
  {| customers := load Customer.customer_id customers_data Dict.empty;
     products := load Product.serial_number products_data Dict.empty;
     service_records :=
       load ServiceRecord.record_id service_records_data Dict.empty |}.

(** ** Handlers

    A handler reads and writes the global store and either returns a value or
    raises an [HTTPException]; a raise leaves the store as it was at that
    point. *)

Record HTTPException : Type := mk_HTTPException {
  status_code : Z;
  detail : string
}.

Definition M (A : Type) : Type := CRMData -> (HTTPException + A) * CRMData.

Definition ret {A} (a : A) : M A := fun st => (inr a, st).

Definition bind {A B} (m : M A) (k : A -> M B) : M B :=
  fun st =>
    match m st with
    | (inl e, st') => (inl e, st')
    | (inr a, st') => k a st'
    end.

Definition raise {A} (e : HTTPException) : M A := fun st => (inl e, st).

Definition read_store : M CRMData := fun st => (inr st, st).

Definition write_service_records (d : Dict.t ServiceRecord.t) : M unit :=
  fun st => (inr tt, mk_CRMData (customers st) (products st) d).

Notation "x <- m ;; k" := (bind m (fun x => k))
  (at level 61, m at next level, right associativity).
Notation "m ;;; k" := (bind m (fun _ => k))
  (at level 61, right associativity).

(** [if cond: raise e] *)
Definition raise_if (cond : bool) (e : HTTPException) : M unit :=
  if cond then raise e else ret tt.

(** [x = d.get(k)] followed by [if not x: raise e]; a model object is always
    truthy, so the test fails only on [None]. *)
Definition get_or_raise {V} (o : option V) (e : HTTPException) : M V :=
  match o with
  | None => raise e
  | Some v => ret v
  end.

(** Status codes by the spec's error kinds. *)
Definition NotFound : Z := 404.
Definition Forbidden : Z := 403.
Definition ValidationError : Z := 422.

(** *** GET /customers/{customer_id} *)
Definition get_customer_by_id (customer_id : string) : M Customer.t :=
  st <- read_store ;;
  get_or_raise (Dict.get (customers st) customer_id)
               (mk_HTTPException 404 "Customer not found").

(** *** GET /customers/{customer_id}/purchases *)
Definition get_customer_purchases (customer_id : string)
  : M (list Product.t) :=
  st <- read_store ;;
  let purchases :=
    filter (fun product => String.eqb (Product.customer_id product) customer_id)
           (Dict.values (products st)) in
  raise_if (match purchases with [] => true | _ => false end)
           (mk_HTTPException 404 "No purchases found for this customer") ;;;
  ret purchases.

(** *** POST /warranty/query *)

Definition WARRANTY_EXPIRED : string := "保修已过期".
Definition WARRANTY_EXPIRING_SOON : string := "保修即将到期".
Definition WARRANTY_VALID : string := "保修有效".


Definition status_text_of (warranty_end_date current_date : date) : string :=
  if date_ltb warranty_end_date current_date then WARRANTY_EXPIRED
  else if (date_sub_days warranty_end_date current_date <=? 30)%Z
       then WARRANTY_EXPIRING_SOON
       else WARRANTY_VALID.

Definition query_warranty (current_date : date) (query : WarrantyQuery.t)
  : M WarrantyResponse.t :=
  st <- read_store ;;
  product <- get_or_raise
               (Dict.get (products st) (WarrantyQuery.serial_number query))
               (mk_HTTPException 404 "Product not found") ;;
  (if opt_str_truthy (WarrantyQuery.customer_email query) then
     match Dict.get (customers st) (Product.customer_id product) with
     | None =>
         raise (mk_HTTPException 403 "Customer email verification failed")
     | Some customer =>
         raise_if (differs (Customer.email customer)
                                 (WarrantyQuery.customer_email query))
                  (mk_HTTPException 403 "Customer email verification failed")
     end
   else ret tt) ;;;
  customer <- get_or_raise
                (Dict.get (customers st) (Product.customer_id product))
                (mk_HTTPException 404 "Customer not found") ;;
  let status_text :=
    status_text_of (Product.warranty_end_date product) current_date in
  ret {| WarrantyResponse.product_name := Product.product_name product;
         WarrantyResponse.serial_number := Product.serial_number product;
         WarrantyResponse.customer_name := Customer.name customer;
         WarrantyResponse.purchase_date := Product.purchase_date product;
         WarrantyResponse.warranty_end_date :=
           Product.warranty_end_date product;
         WarrantyResponse.warranty_type := Product.warranty_type product;
         WarrantyResponse.status_text := status_text |}.

(** *** POST /service/records *)
Definition create_service_record (record : ServiceRecordCreate.t)
  : M ServiceRecord.t :=
  st <- read_store ;;
  product <- get_or_raise
               (Dict.get (products st) (ServiceRecordCreate.serial_number record))
               (mk_HTTPException 404 "Product not found") ;;
  let record_id :=
    "SRV" ++ format_03d (Z.of_nat (Dict.len (service_records st)) + 1) in
  let service_record :=
    {| ServiceRecord.record_id := record_id;
       ServiceRecord.serial_number := ServiceRecordCreate.serial_number record;
       ServiceRecord.customer_id := Product.customer_id product;
       ServiceRecord.service_date := ServiceRecordCreate.service_date record;
       ServiceRecord.service_type := ServiceRecordCreate.service_type record;
       ServiceRecord.description := ServiceRecordCreate.description record;
       ServiceRecord.technician := ServiceRecordCreate.technician record;
       ServiceRecord.status := "scheduled";
       ServiceRecord.estimated_duration :=
         ServiceRecordCreate.estimated_duration record;
       ServiceRecord.actual_duration := None;
       ServiceRecord.notes := None |} in
  write_service_records
    (Dict.set (service_records st) record_id service_record) ;;;
  ret service_record.

(** *** GET /service/records *)

(** [status and record.status != status], and likewise for the two string
    filters: a falsy filter never skips a record. *)
Definition skips (filter : option string) (field : string) : bool :=
  opt_str_truthy filter && differs field filter.

Fixpoint filter_loop (serial_number customer_id status : option string)
  (records filtered_records : list ServiceRecord.t) : list ServiceRecord.t :=
  match records with
  | [] => filtered_records
  | record :: rest =>
      if skips serial_number (ServiceRecord.serial_number record) then
        filter_loop serial_number customer_id status rest filtered_records
      else if skips customer_id (ServiceRecord.customer_id record) then
        filter_loop serial_number customer_id status rest filtered_records
      else if skips status (ServiceRecord.status record) then
        filter_loop serial_number customer_id status rest filtered_records
      else
        filter_loop serial_number customer_id status rest
                    (filtered_records ++ [record])
  end.

Definition get_service_records (serial_number customer_id : option string)
  (status : option ServiceStatus.t) : M (list ServiceRecord.t) :=
  st <- read_store ;;
  let records := Dict.values (service_records st) in
  ret (filter_loop serial_number customer_id
                   (option_map ServiceStatus.value status) records []).

(** *** PUT /service/records/{record_id}

    [record] is the object held by the dictionary, so the attribute
    assignments are seen through the dictionary: the model writes the updated
    record back under its key. *)
Definition assign_if_not_none {A} (v : option A)
  (assign : A -> ServiceRecord.t -> ServiceRecord.t) (r : ServiceRecord.t)
  : ServiceRecord.t :=
  match v with
  | None => r
  | Some a => assign a r
  end.

Definition apply_update (update : ServiceRecordUpdate.t) (record : ServiceRecord.t)
  : ServiceRecord.t :=
  let record :=
    assign_if_not_none (ServiceRecordUpdate.service_date update)
                       ServiceRecord.set_service_date record in
  let record :=
    assign_if_not_none (ServiceRecordUpdate.status update)
      (fun s => ServiceRecord.set_status (ServiceStatus.value s)) record in
  let record :=
    assign_if_not_none (ServiceRecordUpdate.actual_duration update)
      (fun d => ServiceRecord.set_actual_duration (Some d)) record in
  let record :=
    assign_if_not_none (ServiceRecordUpdate.notes update)
      (fun n => ServiceRecord.set_notes (Some n)) record in
  record.

Arguments apply_update : simpl never.

Definition update_service_record (record_id : string)
  (update : ServiceRecordUpdate.t) : M ServiceRecord.t :=
  st <- read_store ;;
  record <- get_or_raise (Dict.get (service_records st) record_id)
                         (mk_HTTPException 404 "Service record not found") ;;
  let record := apply_update update record in
  write_service_records (Dict.set (service_records st) record_id record) ;;;
  ret record.

(** The endpoint as the framework runs it: the request body is validated
    into a [WarrantyQuery] first, a failed validation of either field is
    answered with status 422, and only a valid query reaches the handler.
    [customer_email] is what [EmailStr] made of the string of the request,
    [None] when the request has none.  Of the body of a 422 answer, which
    the framework builds, the model keeps a message. *)
Definition post_warranty_query (current_date : date)
  (serial_number : string) (customer_email : option EmailStr.outcome)
  : M WarrantyResponse.t :=
  match WarrantyQuery.validate_serial_number serial_number with
  | inl msg => raise (mk_HTTPException 422 msg)
  | inr v =>
      match customer_email with
      | Some EmailStr.Rejected =>
          raise (mk_HTTPException 422 "value is not a valid email address")
      | Some (EmailStr.Parsed e) =>
          query_warranty current_date (WarrantyQuery.make v (Some e))
      | None => query_warranty current_date (WarrantyQuery.make v None)
      end
  end.

(** The answer to a request whose e-mail string is one [EmailStr] is
    modelled on. *)
Definition answer_to_plain (current_date : date) (serial_number raw : string)
  (st : CRMData)
  : option ((HTTPException + WarrantyResponse.t) * CRMData) :=
  match EmailStr.validate_plain raw with
  | Some o => Some (post_warranty_query current_date serial_number (Some o) st)
  | None => None
  end.

(** ** The specification's wording, for comparison with the handlers *)

(** The three warranty buckets as the specification orders them: expired when
    the end date is before today, expiring soon when the remaining days are
    between 0 and 30, valid otherwise. *)
Definition status_by_spec (warranty_end_date today : date) : string :=
  if date_ltb warranty_end_date today then WARRANTY_EXPIRED
  else
    let days := date_sub_days warranty_end_date today in
    if ((0 <=? days) && (days <=? 30))%Z then WARRANTY_EXPIRING_SOON
    else WARRANTY_VALID.

(** A number below 1000 written with exactly three decimal digits. *)
Definition digit (n : Z) : ascii := ascii_of_nat (48 + Z.to_nat n).

Definition three_digits (n : Z) : string :=
  String (digit (n / 100))
    (String (digit (n / 10 mod 10)) (String (digit (n mod 10)) EmptyString)).

(** The products of one customer, in the order of the product dictionary. *)
Definition owned_by (customer_id : string) (st : CRMData) : list Product.t :=
  filter (fun p => String.eqb (Product.customer_id p) customer_id)
         (Dict.values (products st)).

(** Listing by the specification: a supplied filter has to be equal to the
    record's field, an omitted one matches everything. *)
Definition matches (filter : option string) (field : string) : bool :=
  match filter with
  | None => true
  | Some v => String.eqb field v
  end.

Definition records_by_spec (serial_number customer_id : option string)
  (status : option ServiceStatus.t) (records : list ServiceRecord.t)
  : list ServiceRecord.t :=
  filter (fun r =>
            matches serial_number (ServiceRecord.serial_number r)
            && matches customer_id (ServiceRecord.customer_id r)
            && matches (option_map ServiceStatus.value status)
                       (ServiceRecord.status r))
         records.

(** A filter that is the empty string counted as omitted. *)
Definition non_empty (filter : option string) : option string :=
  match filter with
  | Some (String c s) => Some (String c s)
  | _ => None
  end.

(** A serial number by the specification: 8 to 20 characters, each an
    uppercase letter or a digit, and nothing else. *)
Definition upper_or_digit (c : ascii) : bool :=
  let n := nat_of_ascii c in
  ((65 <=? n) && (n <=? 90) || (48 <=? n) && (n <=? 57))%nat.

Fixpoint all_upper_or_digit (s : string) : bool :=
  match s with
  | EmptyString => true
  | String c s' => upper_or_digit c && all_upper_or_digit s'
  end.

Definition serial_by_spec (s : string) : bool :=
  (8 <=? String.length s)%nat && (String.length s <=? 20)%nat
  && all_upper_or_digit s.

Definition newline : string := String "010" EmptyString.

(** ** The application as a whole *)

(** *** GET /v1/ping *)
Definition ping_handler : M string := ret "Ping healthcheck".

(** The routes registered on [app], each with the arguments its handler
    takes once the caller is authenticated and the request is parsed. *)
Inductive request : Type :=
| GET_customer (customer_id : string)
| GET_customer_purchases (customer_id : string)
| POST_warranty_query (serial_number : string)
                      (customer_email : option EmailStr.outcome)
| POST_service_records (record : ServiceRecordCreate.t)
| GET_service_records (serial_number customer_id : option string)
                      (status : option ServiceStatus.t)
| PUT_service_records (record_id : string) (update : ServiceRecordUpdate.t)
| GET_ping.

Inductive body : Type :=
| Body_customer (c : Customer.t)
| Body_products (l : list Product.t)
| Body_warranty (w : WarrantyResponse.t)
| Body_record (r : ServiceRecord.t)
| Body_records (l : list ServiceRecord.t)
| Body_text (s : string).

Definition answer {A} (wrap : A -> body) (m : M A) : M body :=
  a <- m ;; ret (wrap a).

Definition handle (today : date) (req : request) : M body :=
  match req with
  | GET_customer customer_id =>
      answer Body_customer (get_customer_by_id customer_id)
  | GET_customer_purchases customer_id =>
      answer Body_products (get_customer_purchases customer_id)
  | POST_warranty_query serial_number customer_email =>
      answer Body_warranty
             (post_warranty_query today serial_number customer_email)
  | POST_service_records record =>
      answer Body_record (create_service_record record)
  | GET_service_records serial_number customer_id status =>
      answer Body_records (get_service_records serial_number customer_id status)
  | PUT_service_records record_id update =>
      answer Body_record (update_service_record record_id update)
  | GET_ping => answer Body_text ping_handler
  end.

(** The two routes whose handlers assign to the store. *)
Definition writes (req : request) : bool :=
  match req with
  | POST_service_records _ | PUT_service_records _ _ => true
  | _ => false
  end.

(** The handlers are coroutines without an [await], so the server runs them
    one after the other on the shared store; each request comes with the
    date of the day it is served. *)
Fixpoint serve (reqs : list (date * request)) (st : CRMData) : CRMData :=
  match reqs with
  | [] => st
  | (today, req) :: rest => serve rest (snd (handle today req st))
  end.

(** The sample store after 997 further service records have been asked for
    and created: 999 records are on file. *)
Definition repair_request : ServiceRecordCreate.t :=
  ServiceRecordCreate.make "SN20240001" "repair" "broken" "Wang"
    (mk_datetime (mk_date 2024 9 1) 10 0 0) 60.

Definition store_with_999_records : CRMData :=
  serve (repeat (mk_date 2024 9 1, POST_service_records repair_request) 997)
        crm_data.

(** *** Consistency of a store

    What the sample data satisfy and the handlers rely on. *)

(** The identifier [create_service_record] gives to the [i]-th record. *)
Definition record_key (i : nat) : string :=
  "SRV" ++ format_03d (Z.of_nat i).

Fixpoint same_keys (a b : list string) : bool :=
  match a, b with
  | [], [] => true
  | x :: a', y :: b' => String.eqb x y && same_keys a' b'
  | _, _ => false
  end.

(** Every value is stored under the key it carries. *)
Definition keyed_by {V} (key : V -> string) (d : Dict.t V) : bool :=
  forallb (fun kv => String.eqb (key (snd kv)) (fst kv)) d.

Definition date_ok (d : date) : bool :=
  check_date_fields (year d) (month d) (day d).

(** The owner of a product is a customer on file and its dates are dates. *)
Definition product_ok (st : CRMData) (p : Product.t) : bool :=
  match Dict.get (customers st) (Product.customer_id p) with
  | Some _ => true
  | None => false
  end
  && date_ok (Product.purchase_date p)
  && date_ok (Product.warranty_end_date p).

Definition known_status (s : string) : bool :=
  existsb (fun v => String.eqb s (ServiceStatus.value v))
          [ServiceStatus.SCHEDULED; ServiceStatus.COMPLETED;
           ServiceStatus.CANCELLED].

(** A service record is for a product on file, carries that product's owner
    and one of the three statuses. *)
Definition record_ok (st : CRMData) (r : ServiceRecord.t) : bool :=
  match Dict.get (products st) (ServiceRecord.serial_number r) with
  | Some p =>
      String.eqb (Product.customer_id p) (ServiceRecord.customer_id r)
  | None => false
  end
  && known_status (ServiceRecord.status r).

Definition store_okb (st : CRMData) : bool :=
  keyed_by Customer.customer_id (customers st)
  && keyed_by Product.serial_number (products st)
  && forallb (product_ok st) (Dict.values (products st))
  && same_keys (Dict.keys (service_records st))
               (map record_key (seq 1 (Dict.len (service_records st))))
  && keyed_by ServiceRecord.record_id (service_records st)
  && forallb (record_ok st) (Dict.values (service_records st)).

Definition store_ok (st : CRMData) : Prop := store_okb st = true.

(** Two update requests in a row as one: the later one wins on the fields
    both carry. *)
Definition later {A} (first second : option A) : option A :=
  match second with
  | Some v => Some v
  | None => first
  end.

Definition merge_updates (u1 u2 : ServiceRecordUpdate.t)
  : ServiceRecordUpdate.t :=
  ServiceRecordUpdate.make
    (later (ServiceRecordUpdate.service_date u1)
           (ServiceRecordUpdate.service_date u2))
    (later (ServiceRecordUpdate.status u1) (ServiceRecordUpdate.status u2))
    (later (ServiceRecordUpdate.actual_duration u1)
           (ServiceRecordUpdate.actual_duration u2))
    (later (ServiceRecordUpdate.notes u1) (ServiceRecordUpdate.notes u2)).

(** The number a string of digits stands for. *)
Definition number_of (s : string) : option N :=
  option_map N.of_uint (DecimalString.NilEmpty.uint_of_string s).

(** * Properties *)

(** Unfolding of the monad's operations. *)
Ltac run :=
  unfold bind, ret, raise, raise_if, get_or_raise, read_store,
    write_service_records; simpl.


(** ** Dictionaries *)
Section DictFacts.
Context {V : Type}.
Implicit Types (d : Dict.t V) (k : string) (v : V).

Lemma get_set_same d k v : Dict.get (Dict.set d k v) k = Some v.
Proof.
  induction d as [|[k' v'] d IH]; simpl.
  - now rewrite String.eqb_refl.
  - destruct (String.eqb k' k) eqn:E; simpl; now rewrite E.
Qed.

Lemma get_set_other d k k' v :
  k' <> k -> Dict.get (Dict.set d k v) k' = Dict.get d k'.
Proof.
  intros Hne. induction d as [|[k0 v0] d IH]; simpl.
  - destruct (String.eqb k k') eqn:E; [|reflexivity].
    apply String.eqb_eq in E. congruence.
  - destruct (String.eqb k0 k) eqn:E; simpl.
    + apply String.eqb_eq in E. subst k0.
      destruct (String.eqb k k') eqn:E'; [|reflexivity].
      apply String.eqb_eq in E'. congruence.
    + now rewrite IH.
Qed.

Lemma set_set d k v v' : Dict.set (Dict.set d k v) k v' = Dict.set d k v'.
Proof.
  induction d as [|[k' v0] d IH]; simpl.
  - now rewrite String.eqb_refl.
  - destruct (String.eqb k' k) eqn:E; simpl; rewrite E; [reflexivity|].
    now rewrite IH.
Qed.

Lemma set_get_same d k v : Dict.get d k = Some v -> Dict.set d k v = d.
Proof.
  induction d as [|[k' v0] d IH]; simpl; [discriminate|].
  destruct (String.eqb k' k) eqn:E.
  - intros [= ->]. reflexivity.
  - intros H. now rewrite IH.
Qed.

Lemma set_absent d k v : Dict.get d k = None -> Dict.set d k v = (d ++ [(k, v)])%list.
Proof.
  induction d as [|[k' v0] d IH]; simpl; [reflexivity|].
  destruct (String.eqb k' k) eqn:E; [discriminate|].
  intros H. now rewrite IH.
Qed.

Lemma keys_set_present d k v :
  Dict.get d k <> None -> Dict.keys (Dict.set d k v) = Dict.keys d.
Proof.
  unfold Dict.keys. induction d as [|[k' v0] d IH]; simpl; [congruence|].
  destruct (String.eqb k' k) eqn:E; simpl; [reflexivity|].
  intros H. now rewrite IH.
Qed.

Lemma get_none_not_in d k : Dict.get d k = None -> ~ In k (Dict.keys d).
Proof.
  unfold Dict.keys. induction d as [|[k' v0] d IH]; simpl; [tauto|].
  destruct (String.eqb k' k) eqn:E; [discriminate|].
  apply String.eqb_neq in E. intros H [H'|H']; [congruence|].
  now apply IH.
Qed.

(** Assignment keeps the keys pairwise distinct. *)
Lemma wf_set d k v : Dict.wf d -> Dict.wf (Dict.set d k v).
Proof.
  unfold Dict.wf. intros Hwf.
  destruct (Dict.get d k) eqn:G.
  - rewrite keys_set_present; [assumption|congruence].
  - rewrite set_absent by assumption. unfold Dict.keys. rewrite map_app. simpl.
    apply NoDup_app; [assumption|repeat constructor; simpl; tauto|].
    intros x Hx [<-|[]]. now apply get_none_not_in in G.
Qed.

(** A new key goes to the end of the iteration order, an existing key keeps
    its place. *)
Lemma values_set_absent d k v :
  Dict.get d k = None -> Dict.values (Dict.set d k v) = (Dict.values d ++ [v])%list.
Proof.
  intros G. rewrite set_absent by assumption. unfold Dict.values.
  now rewrite map_app.
Qed.

Lemma len_set_absent d k v :
  Dict.get d k = None -> Dict.len (Dict.set d k v) = S (Dict.len d).
Proof.
  intros G. rewrite set_absent by assumption. unfold Dict.len.
  rewrite length_app. simpl. lia.
Qed.

End DictFacts.

(** The sample store has pairwise distinct keys, in the order of the sample
    lists. *)
Lemma crm_data_keys :
  Dict.keys (customers crm_data)
  = ["CUST001"; "CUST002"; "CUST003"; "CUST004"; "CUST005"]
  /\ Dict.keys (products crm_data) = map Product.serial_number products_data
  /\ Dict.keys (service_records crm_data) = ["SRV001"; "SRV002"].
Proof. repeat split. Qed.

Lemma crm_data_wf :
  Dict.wf (customers crm_data) /\ Dict.wf (products crm_data)
  /\ Dict.wf (service_records crm_data).
Proof.
  unfold Dict.wf. destruct crm_data_keys as (-> & -> & ->).
  repeat split; simpl;
    repeat (constructor; [simpl; intuition discriminate|]); constructor.
Qed.

(** ** Dates: the ordinal agrees with the order on triples *)
Section DateFacts.
Local Open Scope Z_scope.
Local Arguments Z.add : simpl never.

Lemma days_before_year_succ y :
  days_before_year (y + 1) = days_before_year y + 365 + leap_day y.
Proof.
  unfold days_before_year, leap_day, is_leap.
  replace (y + 1 - 1) with y by lia.
  destruct (y mod 4 =? 0) eqn:E4; destruct (y mod 100 =? 0) eqn:E100;
    destruct (y mod 400 =? 0) eqn:E400; simpl;
    rewrite ?Z.eqb_eq, ?Z.eqb_neq in *;
    Z.to_euclidean_division_equations; lia.
Qed.

Lemma days_before_year_mono y1 y2 :
  y1 <= y2 -> days_before_year y1 <= days_before_year y2.
Proof.
  unfold days_before_year. intros H.
  Z.to_euclidean_division_equations. lia.
Qed.

Lemma month_cases m :
  1 <= m <= 12 ->
  m = 1 \/ m = 2 \/ m = 3 \/ m = 4 \/ m = 5 \/ m = 6 \/ m = 7 \/ m = 8
  \/ m = 9 \/ m = 10 \/ m = 11 \/ m = 12.
Proof. lia. Qed.

Ltac split_month H :=
  apply month_cases in H;
  repeat (destruct H as [H|H]; [subst|]); [..|subst].

(** The day of the year stays within the year. *)
Lemma day_of_year_bound y m d :
  1 <= m <= 12 -> 1 <= d <= days_in_month y m ->
  1 <= days_before_month y m + d <= 365 + leap_day y.
Proof.
  intros Hm Hd. unfold days_in_month, days_before_month, leap_day in *.
  split_month Hm; destruct (is_leap y); simpl in *; lia.
Qed.

(** Within one year, an earlier month ends before a later one starts. *)
Lemma month_end_before y m1 m2 d :
  1 <= m1 <= 12 -> 1 <= m2 <= 12 -> m1 < m2 ->
  1 <= d <= days_in_month y m1 ->
  days_before_month y m1 + d <= days_before_month y m2.
Proof.
  intros Hm1 Hm2 Hlt Hd. unfold days_in_month, days_before_month in *.
  split_month Hm1; split_month Hm2; try lia;
    destruct (is_leap y); simpl in *; lia.
Qed.

Lemma valid_date_bounds d :
  valid_date d ->
  1 <= year d <= 9999 /\ 1 <= month d <= 12
  /\ 1 <= day d <= days_in_month (year d) (month d).
Proof.
  unfold valid_date, check_date_fields. intros H.
  repeat (apply andb_true_iff in H; destruct H as [H ?]).
  rewrite ?Z.leb_le in *. lia.
Qed.

Lemma date_ltb_toordinal a b :
  valid_date a -> valid_date b ->
  date_ltb a b = true -> toordinal a < toordinal b.
Proof.
  intros Ha Hb Hlt.
  apply valid_date_bounds in Ha. destruct Ha as (Hya & Hma & Hda).
  apply valid_date_bounds in Hb. destruct Hb as (Hyb & Hmb & Hdb).
  unfold date_ltb in Hlt. unfold toordinal, ymd2ord.
  pose proof (day_of_year_bound (year a) Hma Hda) as Ba.
  pose proof (day_of_year_bound (year b) Hmb Hdb) as Bb.
  apply orb_true_iff in Hlt. destruct Hlt as [Hy|Hlt].
  - apply Z.ltb_lt in Hy.
    pose proof (days_before_year_succ (year a)) as Hs.
    assert (days_before_year (year a + 1) <= days_before_year (year b))
      by (apply days_before_year_mono; lia).
    lia.
  - apply andb_true_iff in Hlt. destruct Hlt as [Hy Hlt].
    apply Z.eqb_eq in Hy. rewrite Hy in *.
    apply orb_true_iff in Hlt. destruct Hlt as [Hm|Hlt].
    + apply Z.ltb_lt in Hm.
      pose proof (month_end_before (year b) Hma Hmb Hm Hda). lia.
    + apply andb_true_iff in Hlt. destruct Hlt as [Hm Hd].
      apply Z.eqb_eq in Hm. apply Z.ltb_lt in Hd. rewrite Hm. lia.
Qed.

(** Dates that are not in the [<] relation either way are the same date. *)
Lemma date_ltb_total a b :
  date_ltb a b = false -> date_ltb b a = false -> a = b.
Proof.
  unfold date_ltb. destruct a as [ya ma da], b as [yb mb db]. simpl.
  intros H1 H2.
  destruct (Z.ltb_spec ya yb), (Z.ltb_spec yb ya); simpl in *;
    try discriminate; try lia.
  assert (ya = yb) by lia. subst yb.
  rewrite Z.eqb_refl in *. simpl in *.
  destruct (Z.ltb_spec ma mb), (Z.ltb_spec mb ma); simpl in *;
    try discriminate; try lia.
  assert (ma = mb) by lia. subst mb.
  rewrite Z.eqb_refl in *. simpl in *.
  destruct (Z.ltb_spec da db), (Z.ltb_spec db da);
    try discriminate; try lia.
  f_equal. lia.
Qed.

(** When the end date is not before today, the difference in days is not
    negative. *)
Lemma not_before_days_nonneg a b :
  valid_date a -> valid_date b ->
  date_ltb a b = false -> 0 <= date_sub_days a b.
Proof.
  intros Ha Hb Hlt. unfold date_sub_days.
  destruct (date_ltb b a) eqn:Hgt.
  - pose proof (date_ltb_toordinal Hb Ha Hgt). lia.
  - rewrite (date_ltb_total _ _ Hlt Hgt). lia.
Qed.

End DateFacts.

(** ** Warranty queries *)

Lemma status_text_of_by_spec warranty_end_date today :
  valid_date warranty_end_date -> valid_date today ->
  status_text_of warranty_end_date today
  = status_by_spec warranty_end_date today.
Proof.
  intros He Ht. unfold status_text_of, status_by_spec.
  destruct (date_ltb warranty_end_date today) eqn:Hlt; [reflexivity|].
  pose proof (not_before_days_nonneg He Ht Hlt) as Hge.
  apply Z.leb_le in Hge. cbv zeta. now rewrite Hge.
Qed.

(** The three status texts are pairwise different. *)
Lemma status_texts_distinct :
  WARRANTY_EXPIRED <> WARRANTY_EXPIRING_SOON
  /\ WARRANTY_EXPIRED <> WARRANTY_VALID
  /\ WARRANTY_EXPIRING_SOON <> WARRANTY_VALID.
Proof. repeat split; discriminate. Qed.

(** C1. For a product held by the store (its owner on file, and the e-mail,
    when one is given, being the owner's), [query_warranty] answers without
    touching the store, and the status text of the answer is the bucket the
    specification describes: expired if the warranty end date is before
    today, else expiring soon if 0 <= (end - today).days <= 30, else
    valid. *)
Theorem query_warranty_status_text st today query product customer :
  Dict.get (products st) (WarrantyQuery.serial_number query) = Some product ->
  Dict.get (customers st) (Product.customer_id product) = Some customer ->
  (opt_str_truthy (WarrantyQuery.customer_email query) = true ->
   WarrantyQuery.customer_email query = Some (Customer.email customer)) ->
  valid_date (Product.warranty_end_date product) -> valid_date today ->
  exists response,
    query_warranty today query st = (inr response, st)
    /\ WarrantyResponse.status_text response
       = status_by_spec (Product.warranty_end_date product) today.
Proof.
  intros Hp Hc Hmail Hend Htoday.
  unfold query_warranty. run. rewrite Hp. simpl.
  destruct (opt_str_truthy (WarrantyQuery.customer_email query)) eqn:T.
  - rewrite Hc, (Hmail eq_refl). simpl. rewrite String.eqb_refl. simpl.
    eexists. split; [reflexivity|]. simpl.
    now apply status_text_of_by_spec.
  - rewrite Hc. eexists. split; [reflexivity|]. simpl.
    now apply status_text_of_by_spec.
Qed.

Lemma query_warranty_status_text_witness :
  exists response,
    query_warranty (mk_date 2024 8 1)
      (WarrantyQuery.make "SN20240002" (Some "zhang.ming@example.com"))
      crm_data
    = (inr response, crm_data)
    /\ WarrantyResponse.status_text response = WARRANTY_EXPIRING_SOON.
Proof.
  edestruct (@query_warranty_status_text crm_data (mk_date 2024 8 1)
               (WarrantyQuery.make "SN20240002"
                                   (Some "zhang.ming@example.com")))
    as (response & Hrun & Htext).
  - reflexivity.
  - reflexivity.
  - reflexivity.
  - reflexivity.
  - reflexivity.
  - exists response. split; [exact Hrun | exact Htext].
Defined.

(** The sample product SN20240002, whose warranty ends on 2024-08-15, on
    three days: after the end, within the last 30 days, and earlier. *)
Lemma query_warranty_SN20240002 :
  let status_on today :=
    match fst (query_warranty today (WarrantyQuery.make "SN20240002" None)
                              crm_data) with
    | inr response => Some (WarrantyResponse.status_text response)
    | inl _ => None
    end in
  status_on (mk_date 2024 8 16) = Some WARRANTY_EXPIRED
  /\ status_on (mk_date 2024 8 15) = Some WARRANTY_EXPIRING_SOON
  /\ status_on (mk_date 2024 7 16) = Some WARRANTY_EXPIRING_SOON
  /\ status_on (mk_date 2024 7 15) = Some WARRANTY_VALID.
Proof. repeat split. Qed.

Lemma post_warranty_query_valid today serial_number customer_email st :
  Re.match_ WarrantyQuery.SERIAL_PATTERN serial_number = true ->
  post_warranty_query today serial_number
                      (option_map EmailStr.Parsed customer_email) st
  = query_warranty today (WarrantyQuery.make serial_number customer_email) st.
Proof.
  intros Hm. unfold post_warranty_query,
    WarrantyQuery.validate_serial_number. rewrite Hm. simpl.
  now destruct customer_email.
Qed.

(** C4, as amended.  [query_warranty] fails with 404 for a serial number
    that is not a key of the product dictionary, and so does the endpoint
    for every such serial number that passes the pattern, the e-mail being
    left out or accepted.  For a product on file queried with an e-mail
    address, handler and endpoint fail with 403 exactly when no owner is on
    file whose address is, character by character, the address as [EmailStr]
    parsed it (not the string of the request); a string that [EmailStr]
    rejects is answered with 422 and never compared. *)
Theorem query_warranty_errors st today query :
  (Dict.get (products st) (WarrantyQuery.serial_number query) = None ->
   query_warranty today query st
   = (inl (mk_HTTPException NotFound "Product not found"), st))
  /\ (Dict.get (products st) (WarrantyQuery.serial_number query) = None ->
      Re.match_ WarrantyQuery.SERIAL_PATTERN
                (WarrantyQuery.serial_number query) = true ->
      post_warranty_query today (WarrantyQuery.serial_number query)
        (option_map EmailStr.Parsed (WarrantyQuery.customer_email query)) st
      = (inl (mk_HTTPException NotFound "Product not found"), st))
  /\ (forall product supplied,
        Dict.get (products st) (WarrantyQuery.serial_number query)
        = Some product ->
        WarrantyQuery.customer_email query = Some supplied ->
        str_truthy supplied = true ->
        (query_warranty today query st
         = (inl (mk_HTTPException Forbidden
                   "Customer email verification failed"), st)
         <-> ~ exists customer,
               Dict.get (customers st) (Product.customer_id product)
               = Some customer
               /\ Customer.email customer = supplied))
  /\ (forall product parsed,
        Dict.get (products st) (WarrantyQuery.serial_number query)
        = Some product ->
        Re.match_ WarrantyQuery.SERIAL_PATTERN
                  (WarrantyQuery.serial_number query) = true ->
        str_truthy parsed = true ->
        (post_warranty_query today (WarrantyQuery.serial_number query)
                             (Some (EmailStr.Parsed parsed)) st
         = (inl (mk_HTTPException Forbidden
                   "Customer email verification failed"), st)
         <-> ~ exists customer,
               Dict.get (customers st) (Product.customer_id product)
               = Some customer
               /\ Customer.email customer = parsed))
  /\ (Re.match_ WarrantyQuery.SERIAL_PATTERN
                (WarrantyQuery.serial_number query) = true ->
      exists e,
        post_warranty_query today (WarrantyQuery.serial_number query)
                            (Some EmailStr.Rejected) st
        = (inl e, st)
        /\ status_code e = ValidationError).
Proof.
  assert (forall q product supplied,
            Dict.get (products st) (WarrantyQuery.serial_number q)
            = Some product ->
            WarrantyQuery.customer_email q = Some supplied ->
            str_truthy supplied = true ->
            (query_warranty today q st
             = (inl (mk_HTTPException Forbidden
                       "Customer email verification failed"), st)
             <-> ~ exists customer,
                   Dict.get (customers st) (Product.customer_id product)
                   = Some customer
                   /\ Customer.email customer = supplied)) as Hforbidden.
  { intros q product supplied Hp Hmail Hne.
    unfold query_warranty. run. rewrite Hp, Hmail. simpl. rewrite Hne.
    destruct (Dict.get (customers st) (Product.customer_id product))
      as [customer|] eqn:Hc; simpl.
    + destruct (String.eqb (Customer.email customer) supplied) eqn:E; simpl.
      * apply String.eqb_eq in E. split; [discriminate|].
        intros H. exfalso. apply H. now exists customer.
      * apply String.eqb_neq in E. split; [|reflexivity].
        intros _ (c & [= <-] & Hc'). contradiction.
    + split; [|reflexivity]. intros _ (c & Hc' & _). discriminate. }
  assert (Dict.get (products st) (WarrantyQuery.serial_number query) = None ->
          query_warranty today query st
          = (inl (mk_HTTPException NotFound "Product not found"), st))
    as Hnotfound.
  { intros Hp. unfold query_warranty. run. now rewrite Hp. }
  split; [exact Hnotfound|]. split; [|split; [|split]].
  - intros Hp Hm. rewrite post_warranty_query_valid by assumption.
    destruct query as [sn mail]. now apply Hnotfound.
  - apply Hforbidden.
  - intros product parsed Hp Hm Hne.
    change (Some (EmailStr.Parsed parsed))
      with (option_map EmailStr.Parsed (Some parsed)).
    rewrite post_warranty_query_valid by assumption.
    now apply Hforbidden.
  - intros Hm. unfold post_warranty_query,
      WarrantyQuery.validate_serial_number. rewrite Hm. simpl.
    eexists. split; reflexivity.
Qed.

Lemma query_warranty_errors_witness :
  query_warranty (mk_date 2024 8 1) (WarrantyQuery.make "SN99999999" None)
                 crm_data
  = (inl (mk_HTTPException NotFound "Product not found"), crm_data)
  /\ post_warranty_query (mk_date 2024 8 1) "SN99999999"
       (Some (EmailStr.Parsed "zhang.ming@example.com")) crm_data
     = (inl (mk_HTTPException NotFound "Product not found"), crm_data)
  /\ query_warranty (mk_date 2024 8 1)
       (WarrantyQuery.make "SN20240001" (Some "Zhang.Ming@example.com"))
       crm_data
     = (inl (mk_HTTPException Forbidden "Customer email verification failed"),
        crm_data)
  /\ post_warranty_query (mk_date 2024 8 1) "SN20240001"
       (Some (EmailStr.Parsed "li.hua@example.com")) crm_data
     = (inl (mk_HTTPException Forbidden "Customer email verification failed"),
        crm_data)
  /\ exists e,
       post_warranty_query (mk_date 2024 8 1) "SN20240001"
                           (Some EmailStr.Rejected) crm_data
       = (inl e, crm_data)
       /\ status_code e = ValidationError.
Proof.
  split; [|split; [|split; [|split]]].
  - apply (proj1 (query_warranty_errors crm_data (mk_date 2024 8 1)
                    (WarrantyQuery.make "SN99999999" None))).
    reflexivity.
  - apply (proj1 (proj2 (query_warranty_errors crm_data (mk_date 2024 8 1)
                           (WarrantyQuery.make "SN99999999"
                              (Some "zhang.ming@example.com")))));
      reflexivity.
  - eapply (proj1 (proj2 (proj2 (query_warranty_errors crm_data
              (mk_date 2024 8 1)
              (WarrantyQuery.make "SN20240001"
                                  (Some "Zhang.Ming@example.com")))))).
    + reflexivity.
    + reflexivity.
    + reflexivity.
    + intros (customer & Hc & Hmail). vm_compute in Hc.
      injection Hc as <-. discriminate Hmail.
  - eapply (proj1 (proj2 (proj2 (proj2 (query_warranty_errors crm_data
              (mk_date 2024 8 1) (WarrantyQuery.make "SN20240001" None)))))).
    + reflexivity.
    + reflexivity.
    + reflexivity.
    + intros (customer & Hc & Hmail). vm_compute in Hc.
      injection Hc as <-. discriminate Hmail.
  - apply (proj2 (proj2 (proj2 (proj2 (query_warranty_errors crm_data
             (mk_date 2024 8 1) (WarrantyQuery.make "SN20240001" None)))))).
    reflexivity.
Defined.

(** C4, as stated, fails at the endpoint: the request for the sample
    product SN20240001 with the owner's address written with an upper-case
    domain is answered with the warranty, not with 403, although the string
    of the request is not, character by character, the owner's address. *)
Lemma query_warranty_domain_case_counterexample :
  (exists customer,
     Dict.get (customers crm_data) "CUST001" = Some customer
     /\ Customer.email customer = "zhang.ming@example.com"
     /\ Customer.email customer <> "zhang.ming@EXAMPLE.COM")
  /\ EmailStr.validate_plain "zhang.ming@EXAMPLE.COM"
     = Some (EmailStr.Parsed "zhang.ming@example.com")
  /\ exists response,
       answer_to_plain (mk_date 2024 8 1) "SN20240001"
                       "zhang.ming@EXAMPLE.COM" crm_data
       = Some (inr response, crm_data)
       /\ WarrantyResponse.serial_number response = "SN20240001".
Proof.
  split; [|split].
  - eexists. split; [reflexivity|]. split; [reflexivity|]. discriminate.
  - reflexivity.
  - eexists. split; reflexivity.
Qed.

(** A string that is no address is answered with 422 before the product is
    looked up, also for a serial number that is not on file. *)
Lemma no_address_is_rejected :
  answer_to_plain (mk_date 2024 8 1) "SN99999999" "notanemail" crm_data
  = Some (inl (mk_HTTPException ValidationError
                 "value is not a valid email address"),
          crm_data).
Proof. reflexivity. Qed.

(** ** Purchases of a customer *)

(** C7. [get_customer_purchases] returns the products whose [customer_id] is
    the argument, in the order of the product dictionary, and fails with 404
    exactly when there is none; the customer dictionary plays no part. *)
Theorem get_customer_purchases_spec st customer_id :
  (owned_by customer_id st = [] ->
   get_customer_purchases customer_id st
   = (inl (mk_HTTPException NotFound "No purchases found for this customer"),
      st))
  /\ (owned_by customer_id st <> [] ->
      get_customer_purchases customer_id st
      = (inr (owned_by customer_id st), st))
  /\ (forall p, In p (owned_by customer_id st)
                <-> In p (Dict.values (products st))
                    /\ Product.customer_id p = customer_id)
  /\ (forall customers', 
        fst (get_customer_purchases customer_id
               (mk_CRMData customers' (products st) (service_records st)))
        = fst (get_customer_purchases customer_id st)).
Proof.
  unfold get_customer_purchases, owned_by. run.
  repeat split.
  - intros ->. reflexivity.
  - destruct (filter _ _); [congruence|reflexivity].
  - apply filter_In in H. tauto.
  - apply filter_In in H. destruct H as [_ H]. now apply String.eqb_eq in H.
  - intros [H1 H2]. apply filter_In. split; [assumption|].
    now apply String.eqb_eq.
  - intros customers'. now destruct (filter _ _).
Qed.

Lemma get_customer_purchases_spec_witness :
  get_customer_purchases "CUST009" crm_data
  = (inl (mk_HTTPException NotFound "No purchases found for this customer"),
     crm_data)
  /\ option_map (map Product.serial_number)
       (match fst (get_customer_purchases "CUST003" crm_data) with
        | inr l => Some l
        | inl _ => None
        end)
     = Some ["SN20240005"; "SN20240006"].
Proof.
  split.
  - apply (proj1 (get_customer_purchases_spec crm_data "CUST009")).
    reflexivity.
  - rewrite (proj1 (proj2 (get_customer_purchases_spec crm_data "CUST003")))
      by discriminate.
    reflexivity.
Defined.

(** ** Creating a service record *)

Lemma format_03d_three_digits n :
  (0 <= n < 1000)%Z -> format_03d n = three_digits n.
Proof.
  intros Hn.
  assert (forallb (fun k => String.eqb (format_03d (Z.of_nat k))
                                       (three_digits (Z.of_nat k)))
                  (seq 0 1000) = true) as Hall by (vm_compute; reflexivity).
  rewrite forallb_forall in Hall.
  specialize (Hall (Z.to_nat n)). rewrite Z2Nat.id in Hall by lia.
  apply String.eqb_eq, Hall, in_seq. lia.
Qed.

(** C5. For a serial number that is not a key of the product dictionary,
    [create_service_record] fails with 404 and the store (the service
    records in particular) is left exactly as it was. *)
Theorem create_service_record_unknown_serial st record :
  Dict.get (products st) (ServiceRecordCreate.serial_number record) = None ->
  create_service_record record st
  = (inl (mk_HTTPException NotFound "Product not found"), st)
  /\ service_records (snd (create_service_record record st))
     = service_records st.
Proof.
  intros Hp. unfold create_service_record. run. rewrite Hp. now split.
Qed.

Lemma create_service_record_unknown_serial_witness :
  create_service_record
    (ServiceRecordCreate.make "SN00000000" "repair" "broken" "Wang"
       (mk_datetime (mk_date 2024 9 1) 10 0 0) 60)
    crm_data
  = (inl (mk_HTTPException NotFound "Product not found"), crm_data)
  /\ service_records
       (snd (create_service_record
               (ServiceRecordCreate.make "SN00000000" "repair" "broken" "Wang"
                  (mk_datetime (mk_date 2024 9 1) 10 0 0) 60)
               crm_data))
     = service_records crm_data.
Proof.
  apply (@create_service_record_unknown_serial crm_data
           (ServiceRecordCreate.make "SN00000000" "repair" "broken" "Wang"
              (mk_datetime (mk_date 2024 9 1) 10 0 0) 60)).
  reflexivity.
Defined.

Lemma number_of_zeros k s : number_of (zeros k ++ s) = number_of s.
Proof.
  unfold number_of. induction k as [|k IH]; simpl; [reflexivity|].
  destruct (DecimalString.NilEmpty.uint_of_string (zeros k ++ s)) as [d|];
    destruct (DecimalString.NilEmpty.uint_of_string s) as [d'|];
    simpl in *; try discriminate; try reflexivity.
  now injection IH as ->.
Qed.

Lemma number_of_decimal n : number_of (decimal n) = Some (Z.abs_N n).
Proof.
  unfold number_of, decimal, DecimalString.NilZero.string_of_uint.
  assert (N.to_uint (Z.abs_N n) <> Decimal.Nil) as Hnil.
  { destruct (Z.abs_N n) as [|p]; simpl; [discriminate|].
    intros H. apply (f_equal Pos.of_uint) in H.
    rewrite DecimalPos.Unsigned.of_to in H. discriminate. }
  destruct (N.to_uint (Z.abs_N n)) eqn:E; try contradiction;
    rewrite <- E, DecimalString.NilEmpty.usu; simpl;
    now rewrite DecimalN.Unsigned.of_to.
Qed.

Lemma number_of_format_03d n :
  (0 <= n)%Z -> number_of (format_03d n) = Some (Z.to_N n).
Proof.
  intros Hn. unfold format_03d, format_0d.
  destruct (Z.ltb_spec n 0); [lia|]. simpl String.append.
  rewrite number_of_zeros, number_of_decimal. f_equal. lia.
Qed.

Lemma create_service_record_run_id st record product :
  Dict.get (products st) (ServiceRecordCreate.serial_number record)
  = Some product ->
  exists created st',
    create_service_record record st = (inr created, st')
    /\ ServiceRecord.record_id created
       = "SRV" ++ format_03d (Z.of_nat (Dict.len (service_records st)) + 1).
Proof.
  intros Hp. unfold create_service_record. run. rewrite Hp.
  eexists. eexists. split; reflexivity.
Qed.

Lemma string_of_uint_empty d :
  String.length (DecimalString.NilEmpty.string_of_uint d) = 0%nat ->
  d = Decimal.Nil.
Proof. destruct d; simpl; (reflexivity || discriminate). Qed.

Ltac next_digit d H :=
  destruct d as [|d|d|d|d|d|d|d|d|d|d]; [reflexivity|..]; simpl in H.

(** A number written with at most three digits is below 1000. *)
Lemma short_uint_small d :
  (String.length (DecimalString.NilEmpty.string_of_uint d) <= 3)%nat ->
  (N.of_uint d < 1000)%N.
Proof.
  intros H. next_digit d H; next_digit d H; next_digit d H;
    (assert (d = Decimal.Nil) as -> by (apply string_of_uint_empty; lia));
    reflexivity.
Qed.

(** From 1000 on the number is written without padding, with four digits
    or more. *)
Lemma format_03d_unpadded n :
  (1000 <= n)%Z ->
  format_03d n = decimal n /\ (4 <= String.length (decimal n))%nat.
Proof.
  intros Hn.
  assert (4 <= String.length (decimal n))%nat as Hlen.
  { unfold decimal, DecimalString.NilZero.string_of_uint.
    assert (N.of_uint (N.to_uint (Z.abs_N n)) = Z.abs_N n) as Hof
      by apply DecimalN.Unsigned.of_to.
    destruct (N.to_uint (Z.abs_N n)) eqn:E;
      try (destruct (Nat.le_gt_cases
                       (String.length (DecimalString.NilEmpty.string_of_uint
                                         (N.to_uint (Z.abs_N n)))) 3)
            as [Hs|Hs];
           [apply short_uint_small in Hs; rewrite DecimalN.Unsigned.of_to in Hs;
            lia
           |rewrite E in Hs; exact Hs]).
    simpl in Hof. lia. }
  split; [|assumption].
  unfold format_03d, format_0d. destruct (Z.ltb_spec n 0); [lia|].
  change (String.length EmptyString) with 0%nat.
  replace (3 - 0 - String.length (decimal n))%nat with 0%nat by lia.
  reflexivity.
Qed.

(** C2, as amended.  For a serial number on file, [create_service_record]
    returns a record and stores it under its [record_id]; the identifier is
    "SRV" followed by (number of service records + 1) in decimal, padded
    with zeros to three digits while that number is below 1000 and written
    with all its digits, four or more and no padding, from 1000 on; the
    status is "scheduled", the customer is the product's owner,
    [actual_duration] and [notes] are [None], and the remaining fields are
    the request's.  Customers and products are left alone. *)
Theorem create_service_record_spec st record product :
  Dict.get (products st) (ServiceRecordCreate.serial_number record)
  = Some product ->
  let n := (Z.of_nat (Dict.len (service_records st)) + 1)%Z in
  exists created st',
    create_service_record record st = (inr created, st')
    /\ customers st' = customers st
    /\ products st' = products st
    /\ service_records st'
       = Dict.set (service_records st) (ServiceRecord.record_id created) created
    /\ Dict.get (service_records st') (ServiceRecord.record_id created)
       = Some created
    /\ ServiceRecord.record_id created = "SRV" ++ format_03d n
    /\ ((n < 1000)%Z ->
        ServiceRecord.record_id created = "SRV" ++ three_digits n)
    /\ ((1000 <= n)%Z ->
        ServiceRecord.record_id created = "SRV" ++ decimal n
        /\ (7 <= String.length (ServiceRecord.record_id created))%nat)
    /\ number_of (format_03d n) = Some (Z.to_N n)
    /\ ServiceRecord.status created = "scheduled"
    /\ ServiceRecord.customer_id created = Product.customer_id product
    /\ ServiceRecord.actual_duration created = None
    /\ ServiceRecord.notes created = None
    /\ ServiceRecord.serial_number created
       = ServiceRecordCreate.serial_number record
    /\ ServiceRecord.service_date created
       = ServiceRecordCreate.service_date record
    /\ ServiceRecord.service_type created
       = ServiceRecordCreate.service_type record
    /\ ServiceRecord.description created
       = ServiceRecordCreate.description record
    /\ ServiceRecord.technician created
       = ServiceRecordCreate.technician record
    /\ ServiceRecord.estimated_duration created
       = ServiceRecordCreate.estimated_duration record.
Proof.
  intros Hp n. unfold create_service_record. run. rewrite Hp.
  eexists. eexists. split; [reflexivity|]. simpl.
  repeat split.
  - apply get_set_same.
  - intros Hn. unfold n in *. rewrite format_03d_three_digits by lia.
    reflexivity.
  - unfold n in *. now rewrite (proj1 (format_03d_unpadded H)).
  - unfold n in *. rewrite (proj1 (format_03d_unpadded H)).
    pose proof (proj2 (format_03d_unpadded H)). lia.
  - apply number_of_format_03d. lia.
Qed.

Lemma create_service_record_spec_witness :
  exists created st',
    create_service_record
      (ServiceRecordCreate.make "SN20240001" "repair" "broken" "Wang"
         (mk_datetime (mk_date 2024 9 1) 10 0 0) 60)
      crm_data
    = (inr created, st')
    /\ ServiceRecord.record_id created = "SRV003"
    /\ ServiceRecord.status created = "scheduled"
    /\ ServiceRecord.customer_id created = "CUST001"
    /\ Dict.keys (service_records st') = ["SRV001"; "SRV002"; "SRV003"].
Proof.
  edestruct (@create_service_record_spec crm_data
               (ServiceRecordCreate.make "SN20240001" "repair" "broken" "Wang"
                  (mk_datetime (mk_date 2024 9 1) 10 0 0) 60))
    as (created & st' & Hrun & _ & _ & Hrecs & _ & Hid & _ & _ & _ & Hst
        & Hcust & _).
  - reflexivity.
  - exists created, st'. split; [exact Hrun|].
    split; [exact Hid|]. split; [exact Hst|]. split; [exact Hcust|].
    rewrite Hrecs, Hid.
    injection Hrun as <- _. reflexivity.
Defined.

(** C2, as stated, fails once 999 records are on file: the next identifier
    is SRV1000, which is not "SRV" followed by three digits. *)
Lemma create_service_record_four_digits_counterexample :
  Dict.len (service_records store_with_999_records) = 999%nat
  /\ exists created st',
       create_service_record repair_request store_with_999_records
       = (inr created, st')
       /\ ServiceRecord.record_id created = "SRV1000"
       /\ String.length (ServiceRecord.record_id created) <> 6%nat
       /\ ServiceRecord.record_id created
          <> "SRV" ++ three_digits
                        (Z.of_nat (Dict.len (service_records
                                               store_with_999_records)) + 1).
Proof.
  assert (Dict.len (service_records store_with_999_records) = 999%nat) as Hlen
    by (vm_compute; reflexivity).
  split; [exact Hlen|].
  edestruct (@create_service_record_run_id store_with_999_records
               repair_request) as (created & st' & Hrun & Hid);
    [vm_compute; reflexivity|].
  exists created, st'. split; [exact Hrun|].
  rewrite Hid, Hlen. repeat split; vm_compute; discriminate.
Qed.

(** ** Updating a service record *)

(** Assigning the same fields a second time changes nothing. *)
Lemma apply_update_idempotent update record :
  apply_update update (apply_update update record) = apply_update update record.
Proof.
  destruct update as [[d|] [s|] [a|] [n|]]; reflexivity.
Qed.

(** C3. For a record on file, [update_service_record] returns the record
    with exactly the fields that are not [None] in the request replaced
    (whatever the old and new status are), every other field, every other
    record and the other two dictionaries as before; for an unknown
    [record_id] it fails with 404 and leaves the store as it was. *)
Theorem update_service_record_spec st record_id update :
  (forall record,
     Dict.get (service_records st) record_id = Some record ->
     exists updated st',
       update_service_record record_id update st = (inr updated, st')
       /\ customers st' = customers st
       /\ products st' = products st
       /\ Dict.get (service_records st') record_id = Some updated
       /\ (forall other, other <> record_id ->
             Dict.get (service_records st') other
             = Dict.get (service_records st) other)
       /\ Dict.keys (service_records st') = Dict.keys (service_records st)
       /\ ServiceRecord.service_date updated
          = match ServiceRecordUpdate.service_date update with
            | Some v => v
            | None => ServiceRecord.service_date record
            end
       /\ ServiceRecord.status updated
          = match ServiceRecordUpdate.status update with
            | Some v => ServiceStatus.value v
            | None => ServiceRecord.status record
            end
       /\ ServiceRecord.actual_duration updated
          = match ServiceRecordUpdate.actual_duration update with
            | Some v => Some v
            | None => ServiceRecord.actual_duration record
            end
       /\ ServiceRecord.notes updated
          = match ServiceRecordUpdate.notes update with
            | Some v => Some v
            | None => ServiceRecord.notes record
            end
       /\ ServiceRecord.record_id updated = ServiceRecord.record_id record
       /\ ServiceRecord.serial_number updated
          = ServiceRecord.serial_number record
       /\ ServiceRecord.customer_id updated = ServiceRecord.customer_id record
       /\ ServiceRecord.service_type updated
          = ServiceRecord.service_type record
       /\ ServiceRecord.description updated = ServiceRecord.description record
       /\ ServiceRecord.technician updated = ServiceRecord.technician record
       /\ ServiceRecord.estimated_duration updated
          = ServiceRecord.estimated_duration record)
  /\ (Dict.get (service_records st) record_id = None ->
      update_service_record record_id update st
      = (inl (mk_HTTPException NotFound "Service record not found"), st)).
Proof.
  split.
  - intros record Hr. unfold update_service_record. run. rewrite Hr.
    eexists. eexists. split; [reflexivity|]. simpl.
    split; [reflexivity|]. split; [reflexivity|].
    split; [apply get_set_same|].
    split; [intros other Hne; now apply get_set_other|].
    split; [apply keys_set_present; congruence|].
    unfold apply_update.
    destruct update as [[d|] [s|] [a|] [n|]]; simpl; repeat split.
  - intros Hr. unfold update_service_record. run. now rewrite Hr.
Qed.

Lemma update_service_record_spec_witness :
  (exists updated st',
     update_service_record "SRV001"
       (ServiceRecordUpdate.make None (Some ServiceStatus.SCHEDULED) None None)
       crm_data
     = (inr updated, st')
     /\ ServiceRecord.status updated = "scheduled"
     /\ ServiceRecord.actual_duration updated = Some 110%Z
     /\ Dict.get (service_records st') "SRV002"
        = Dict.get (service_records crm_data) "SRV002")
  /\ update_service_record "SRV009"
       (ServiceRecordUpdate.make None (Some ServiceStatus.SCHEDULED) None None)
       crm_data
     = (inl (mk_HTTPException NotFound "Service record not found"), crm_data).
Proof.
  split.
  - edestruct (proj1 (update_service_record_spec crm_data "SRV001"
                 (ServiceRecordUpdate.make None (Some ServiceStatus.SCHEDULED)
                                           None None)))
      as (updated & st' & Hrun & _ & _ & _ & Hother & _ & _ & Hst & Hdur & _).
    + reflexivity.
    + exists updated, st'. split; [exact Hrun|]. split; [exact Hst|].
      split; [exact Hdur|]. apply Hother. discriminate.
  - apply (proj2 (update_service_record_spec crm_data "SRV009"
                    (ServiceRecordUpdate.make None
                       (Some ServiceStatus.SCHEDULED) None None))).
    reflexivity.
Defined.

(** C9. For a record on file, running [update_service_record] a second time
    with the same request returns the same record and leaves the store
    exactly as the first run left it. *)
Theorem update_service_record_idempotent st record_id update record :
  Dict.get (service_records st) record_id = Some record ->
  exists updated st1,
    update_service_record record_id update st = (inr updated, st1)
    /\ update_service_record record_id update st1 = (inr updated, st1).
Proof.
  intros Hr. unfold update_service_record. run. rewrite Hr.
  eexists. eexists. split; [reflexivity|]. simpl.
  rewrite get_set_same. run.
  rewrite apply_update_idempotent, set_set. reflexivity.
Qed.

Lemma update_service_record_idempotent_witness :
  exists updated st1,
    update_service_record "SRV002"
      (ServiceRecordUpdate.make None (Some ServiceStatus.COMPLETED) (Some 45%Z)
                                (Some "done"))
      crm_data
    = (inr updated, st1)
    /\ update_service_record "SRV002"
         (ServiceRecordUpdate.make None (Some ServiceStatus.COMPLETED)
                                   (Some 45%Z) (Some "done"))
         st1
       = (inr updated, st1).
Proof.
  eapply (@update_service_record_idempotent crm_data "SRV002"
            (ServiceRecordUpdate.make None (Some ServiceStatus.COMPLETED)
                                      (Some 45%Z) (Some "done"))).
  reflexivity.
Defined.

(** ** Listing service records *)

Lemma skips_matches filter field :
  negb (skips filter field) = matches (non_empty filter) field.
Proof.
  unfold skips, differs, matches, non_empty.
  destruct filter as [[|c s]|]; cbn [opt_str_truthy str_truthy andb negb];
    auto using negb_involutive.
Qed.

(** The loop with its [continue]s is a filter of the records. *)
Lemma filter_loop_filter serial_number customer_id status records acc :
  filter_loop serial_number customer_id status records acc
  = (acc ++ filter (fun r =>
              negb (skips serial_number (ServiceRecord.serial_number r))
              && negb (skips customer_id (ServiceRecord.customer_id r))
              && negb (skips status (ServiceRecord.status r)))
            records)%list.
Proof.
  revert acc. induction records as [|r records IH]; intros acc; simpl.
  - now rewrite app_nil_r.
  - destruct (skips serial_number _); simpl; [apply IH|].
    destruct (skips customer_id _); simpl; [apply IH|].
    destruct (skips status _); simpl; [apply IH|].
    rewrite IH, <- app_assoc. reflexivity.
Qed.

Lemma non_empty_status status :
  non_empty (option_map ServiceStatus.value status)
  = option_map ServiceStatus.value status.
Proof. now destruct status as [[]|]. Qed.

(** What the handler computes, in terms of its own tests. *)
Lemma get_service_records_run st serial_number customer_id status :
  get_service_records serial_number customer_id status st
  = (inr (filter (fun r =>
            negb (skips serial_number (ServiceRecord.serial_number r))
            && negb (skips customer_id (ServiceRecord.customer_id r))
            && negb (skips (option_map ServiceStatus.value status)
                           (ServiceRecord.status r)))
          (Dict.values (service_records st))),
     st).
Proof.
  unfold get_service_records. run. now rewrite filter_loop_filter.
Qed.

(** C6, as amended.  For every combination of the filters,
    [get_service_records] never fails, leaves the store alone, and returns,
    in dictionary order, exactly the records that agree with every filter
    that is supplied and not the empty string; a filter that is omitted or
    empty matches everything.  The list is empty when no record agrees. *)
Theorem get_service_records_spec st serial_number customer_id status :
  get_service_records serial_number customer_id status st
  = (inr (records_by_spec (non_empty serial_number) (non_empty customer_id)
            status (Dict.values (service_records st))),
     st).
Proof.
  rewrite get_service_records_run. f_equal. f_equal.
  unfold records_by_spec. apply filter_ext. intros r.
  now rewrite !skips_matches, non_empty_status.
Qed.

(** C6, as stated, fails: with the empty string as serial-number filter the
    handler returns both sample records, none of which has an empty serial
    number. *)
Lemma get_service_records_empty_filter_counterexample :
  get_service_records (Some EmptyString) None None crm_data
  <> (inr (records_by_spec (Some EmptyString) None None
             (Dict.values (service_records crm_data))),
      crm_data)
  /\ records_by_spec (Some EmptyString) None None
       (Dict.values (service_records crm_data)) = []
  /\ option_map (map ServiceRecord.record_id)
       (match fst (get_service_records (Some EmptyString) None None crm_data)
        with inr l => Some l | inl _ => None end)
     = Some ["SRV001"; "SRV002"].
Proof.
  split; [|split].
  - intros H. vm_compute in H. discriminate H.
  - reflexivity.
  - reflexivity.
Qed.

Lemma filter_all {A} (l : list A) : filter (fun _ => true) l = l.
Proof. induction l as [|x l IH]; simpl; [reflexivity|now rewrite IH]. Qed.

(** C10. An empty string given as [serial_number] or as [customer_id]
    filter has the effect of leaving that filter out: the handler returns
    what it returns without it, and with nothing but empty strings it returns
    every record, whatever the records' fields are. *)
Theorem get_service_records_empty_string_filter
  st serial_number customer_id status :
  get_service_records (Some EmptyString) customer_id status st
  = get_service_records None customer_id status st
  /\ get_service_records serial_number (Some EmptyString) status st
     = get_service_records serial_number None status st
  /\ get_service_records (Some EmptyString) (Some EmptyString) None st
     = (inr (Dict.values (service_records st)), st).
Proof.
  rewrite !get_service_records_run.
  split; [reflexivity|]. split; [reflexivity|].
  cbn [skips opt_str_truthy str_truthy option_map andb negb].
  now rewrite filter_all.
Qed.

(** The handlers that write keep the keys of the service records pairwise
    distinct. *)
Lemma writes_keep_wf st :
  Dict.wf (service_records st) ->
  (forall record,
     Dict.wf (service_records (snd (create_service_record record st))))
  /\ (forall record_id update,
       Dict.wf (service_records
                  (snd (update_service_record record_id update st)))).
Proof.
  intros Hwf. split.
  - intros record. unfold create_service_record. run.
    destruct (Dict.get (products st) _); simpl; [now apply wf_set|assumption].
  - intros record_id update. unfold update_service_record. run.
    destruct (Dict.get (service_records st) _); simpl;
      [now apply wf_set|assumption].
Qed.

(** ** The serial-number pattern *)
Section Pattern.

Lemma append_empty_inv (a b : string) :
  a ++ b = EmptyString -> a = EmptyString /\ b = EmptyString.
Proof. destruct a; simpl; [auto|discriminate]. Qed.

Lemma append_empty_r (a : string) : a ++ EmptyString = a.
Proof. induction a; simpl; [reflexivity|now rewrite IHa]. Qed.

(** A repetition succeeds exactly when the string splits into a run of
    class characters of an allowed length and a rest the continuation
    accepts. *)
Lemma repeat_true k ranges room :
  forall lo at_start s,
    Re.repeat k ranges lo room at_start s = true <->
    exists pre post,
      s = pre ++ post
      /\ (lo <= String.length pre <= room)%nat
      /\ Re.all_in_class ranges pre = true
      /\ k (at_start && (String.length pre =? 0)%nat) post = true.
Proof.
  assert (Hstop : forall lo at_start s room',
    (lo =? 0)%nat && k at_start s = true <->
    exists pre post,
      s = pre ++ post /\ (lo <= String.length pre <= room')%nat
      /\ pre = EmptyString
      /\ Re.all_in_class ranges pre = true
      /\ k (at_start && (String.length pre =? 0)%nat) post = true).
  { intros lo at_start s room'. rewrite andb_true_iff, Nat.eqb_eq. split.
    - intros [-> Hk]. exists EmptyString, s. simpl.
      rewrite andb_true_r. repeat split; auto; lia.
    - intros (pre & post & -> & Hlen & -> & _ & Hk). simpl in *.
      rewrite andb_true_r in Hk. split; [lia|assumption]. }
  induction room as [|room IH]; intros lo at_start s.
  - simpl. rewrite (Hstop lo at_start s 0%nat). split.
    + intros (pre & post & ? & ? & ? & ? & ?). exists pre, post. auto.
    + intros (pre & post & -> & Hlen & Hcls & Hk). exists pre, post.
      repeat split; auto; try lia. destruct pre; [reflexivity|simpl in *; lia].
  - simpl. destruct s as [|c s'].
    + rewrite (Hstop lo at_start EmptyString (S room)). split.
      * intros (pre & post & ? & ? & ? & ? & ?). exists pre, post. auto.
      * intros (pre & post & Hs & Hlen & Hcls & Hk). exists pre, post.
        symmetry in Hs. apply append_empty_inv in Hs. destruct Hs as [-> ->].
        repeat split; auto; lia.
    + destruct (Re.in_class ranges c) eqn:Hc.
      * rewrite orb_true_iff, IH, (Hstop lo at_start (String c s') (S room)).
        split.
        -- intros [(pre & post & -> & Hlen & Hcls & Hk)
                  |(pre & post & Hs & Hlen & -> & Hcls & Hk)].
           ++ exists (String c pre), post. simpl. rewrite Hc, Hcls.
              rewrite andb_false_r. simpl in Hk.
              repeat split; auto; lia.
           ++ exists EmptyString, post. auto.
        -- intros (pre & post & Hs & Hlen & Hcls & Hk).
           destruct pre as [|c' pre].
           ++ right. exists EmptyString, post. auto.
           ++ left. simpl in Hs. injection Hs as <- ->.
              simpl in Hcls, Hlen, Hk. rewrite Hc in Hcls. simpl in Hcls.
              rewrite andb_false_r in Hk.
              exists pre, post. simpl. repeat split; auto; lia.
      * rewrite (Hstop lo at_start (String c s') (S room)). split.
        -- intros (pre & post & ? & ? & ? & ? & ?). exists pre, post. auto.
        -- intros (pre & post & Hs & Hlen & Hcls & Hk).
           destruct pre as [|c' pre].
           ++ exists EmptyString, post. auto.
           ++ simpl in Hs. injection Hs as <- ->. simpl in Hcls.
              rewrite Hc in Hcls. discriminate.
Qed.

Lemma at_end_true s :
  Re.at_end s = true <-> s = EmptyString \/ s = newline.
Proof.
  unfold newline. destruct s as [|c [|c' s]]; simpl.
  - intuition.
  - rewrite Ascii.eqb_eq. split.
    + intros ->. now right.
    + intros [H|H]; [discriminate|]. now injection H.
  - split; [discriminate|]. intros [H|H]; discriminate.
Qed.

Lemma serial_class_by_spec s :
  Re.all_in_class [("A"%char, "Z"%char); ("0"%char, "9"%char)] s
  = all_upper_or_digit s.
Proof.
  induction s as [|c s IH]; simpl; [reflexivity|]. rewrite IH. f_equal.
  unfold Re.in_class, upper_or_digit. simpl. now rewrite orb_false_r.
Qed.

(** What the validator lets through: the serial numbers of the
    specification, and each of them followed by one newline. *)
Lemma serial_pattern_accepts v :
  Re.match_ WarrantyQuery.SERIAL_PATTERN v = true <->
  exists body,
    serial_by_spec body = true /\ (v = body \/ v = body ++ newline).
Proof.
  unfold Re.match_, WarrantyQuery.SERIAL_PATTERN. cbn [Re.match_here andb].
  rewrite repeat_true. unfold serial_by_spec. split.
  - intros (pre & post & -> & Hlen & Hcls & Hk).
    rewrite andb_true_r in Hk. apply at_end_true in Hk.
    rewrite serial_class_by_spec in Hcls.
    exists pre. split.
    + rewrite !andb_true_iff, !Nat.leb_le. repeat split; [lia|lia|assumption].
    + destruct Hk as [->| ->]; [left|right]; [|reflexivity].
      apply append_empty_r.
  - intros (body & Hb & Hv).
    rewrite !andb_true_iff, !Nat.leb_le in Hb. destruct Hb as [[H8 H20] Hc].
    destruct Hv as [->| ->];
      [exists body, EmptyString|exists body, newline];
      rewrite serial_class_by_spec, andb_true_r; repeat split; auto.
    symmetry. apply append_empty_r.
Qed.

End Pattern.

(** C8, at the input where the handler and the claim part.  A serial number
    of ten allowed characters followed by a newline is not a serial number by
    the specification, yet the validator returns it unchanged, and the
    endpoint goes on to the product lookup and answers 404 instead of 422. *)
Theorem serial_with_trailing_newline_not_rejected today :
  serial_by_spec ("SN20240001" ++ newline) = false
  /\ WarrantyQuery.validate_serial_number ("SN20240001" ++ newline)
     = inr ("SN20240001" ++ newline)
  /\ post_warranty_query today ("SN20240001" ++ newline) None crm_data
     = (inl (mk_HTTPException NotFound "Product not found"), crm_data)
  /\ status_code (mk_HTTPException NotFound "Product not found")
     <> ValidationError.
Proof.
  split; [reflexivity|]. split; [reflexivity|]. split; [reflexivity|].
  discriminate.
Qed.

(** Apart from that trailing newline the validator does what the
    specification says: it rejects, with the [ValueError] that the framework
    turns into status 422 before the handler runs, every string that is
    neither a serial number nor a serial number followed by a newline. *)
Lemma validate_serial_number_rejects v :
  (exists msg, WarrantyQuery.validate_serial_number v = inl msg) <->
  ~ exists body, serial_by_spec body = true /\ (v = body \/ v = body ++ newline).
Proof.
  rewrite <- serial_pattern_accepts.
  unfold WarrantyQuery.validate_serial_number.
  destruct (Re.match_ WarrantyQuery.SERIAL_PATTERN v); simpl; split.
  - intros [msg H]. discriminate.
  - intros H. now contradiction H.
  - discriminate.
  - intros _. eexists. reflexivity.
Qed.

(** * Further properties of the service *)

(** ** Record identifiers *)

Lemma format_03d_same a b :
  (0 <= a)%Z -> (0 <= b)%Z -> format_03d a = format_03d b -> a = b.
Proof.
  intros Ha Hb H. apply (f_equal number_of) in H.
  rewrite !number_of_format_03d in H by assumption.
  injection H as H. lia.
Qed.

(** X4. [format(n, "03d")] tells counts apart: two different numbers from
    0 on never print as the same string, whether or not they need padding. *)
Theorem format_03d_injective a b :
  (0 <= a)%Z -> (0 <= b)%Z -> a <> b -> format_03d a <> format_03d b.
Proof.
  intros Ha Hb Hne H. apply Hne. now apply format_03d_same.
Qed.

Lemma format_03d_injective_witness : format_03d 99 <> format_03d 1099.
Proof.
  apply (@format_03d_injective 99 1099); lia.
Defined.

(** ** More on dictionaries *)
Section DictMore.
Context {V : Type}.
Implicit Types (d : Dict.t V) (k : string) (v : V).

Lemma get_in d k v : Dict.get d k = Some v -> In (k, v) d.
Proof.
  induction d as [|[k' v'] d IH]; simpl; [discriminate|].
  destruct (String.eqb k' k) eqn:E.
  - apply String.eqb_eq in E. intros [= ->]. left. now subst.
  - intros H. right. now apply IH.
Qed.

Lemma get_in_values d k v : Dict.get d k = Some v -> In v (Dict.values d).
Proof.
  intros H. apply get_in in H. unfold Dict.values.
  change v with (snd (k, v)). now apply in_map.
Qed.

Lemma get_in_keys d k v : Dict.get d k = Some v -> In k (Dict.keys d).
Proof.
  intros H. apply get_in in H. unfold Dict.keys.
  change k with (fst (k, v)). now apply in_map.
Qed.

Lemma not_in_keys_get d k : ~ In k (Dict.keys d) -> Dict.get d k = None.
Proof.
  intros H. destruct (Dict.get d k) eqn:G; [|reflexivity].
  contradiction H. now apply get_in_keys in G.
Qed.

Lemma keys_set_absent d k v :
  Dict.get d k = None -> Dict.keys (Dict.set d k v) = (Dict.keys d ++ [k])%list.
Proof.
  intros G. rewrite set_absent by assumption. unfold Dict.keys.
  now rewrite map_app.
Qed.

Lemma len_set_present d k v :
  Dict.get d k <> None -> Dict.len (Dict.set d k v) = Dict.len d.
Proof.
  intros G. unfold Dict.len.
  rewrite <- (length_map fst (Dict.set d k v)), <- (length_map fst d).
  change (map fst (Dict.set d k v)) with (Dict.keys (Dict.set d k v)).
  now rewrite keys_set_present.
Qed.

(** Assignment to a key on file changes one place of the dictionary. *)
Lemma set_present_split d k v v' :
  Dict.get d k = Some v ->
  exists before after,
    d = (before ++ (k, v) :: after)%list
    /\ Dict.set d k v' = (before ++ (k, v') :: after)%list.
Proof.
  induction d as [|[k0 v0] d IH]; simpl; [discriminate|].
  destruct (String.eqb k0 k) eqn:E.
  - apply String.eqb_eq in E. subst k0. intros [= ->].
    now exists [], d.
  - intros G. destruct (IH G) as (before & after & Hd & Hs).
    exists ((k0, v0) :: before), after. simpl. now rewrite <- Hd, Hs.
Qed.

(** A test that holds of every entry holds after an assignment when it holds
    of the new entry. *)
Lemma forallb_set (P : string * V -> bool) d k v :
  forallb P d = true -> P (k, v) = true -> forallb P (Dict.set d k v) = true.
Proof.
  intros Hd Hv. induction d as [|[k0 v0] d IH]; simpl in *.
  - now rewrite Hv.
  - apply andb_true_iff in Hd. destruct Hd as [H0 Hd].
    destruct (String.eqb k0 k) eqn:E; simpl.
    + apply String.eqb_eq in E. subst k0. now rewrite Hv, Hd.
    + now rewrite H0, IH.
Qed.

Lemma forallb_values (Q : V -> bool) d :
  forallb Q (Dict.values d) = forallb (fun kv => Q (snd kv)) d.
Proof.
  unfold Dict.values. induction d as [|kv d IH]; simpl; [reflexivity|].
  now rewrite IH.
Qed.

End DictMore.

Lemma same_keys_eq a b : same_keys a b = true <-> a = b.
Proof.
  revert b. induction a as [|x a IH]; intros [|y b]; simpl;
    try (split; [discriminate|discriminate]); [tauto|].
  rewrite andb_true_iff, String.eqb_eq, IH. split.
  - intros [-> ->]. reflexivity.
  - intros [= -> ->]. auto.
Qed.

Lemma record_key_injective i j : record_key i = record_key j -> i = j.
Proof.
  unfold record_key. intros H. simpl in H. injection H as H.
  apply format_03d_same in H; lia.
Qed.

(** The identifier made from the number of records, as a [record_key]. *)
Lemma next_record_key n :
  String "S" (String "R" (String "V" (format_03d (Z.of_nat n + 1))))
  = record_key (S n).
Proof. unfold record_key. simpl. do 4 f_equal. lia. Qed.

Lemma record_key_fresh n : ~ In (record_key (S n)) (map record_key (seq 1 n)).
Proof.
  intros H. apply in_map_iff in H. destruct H as (i & Hi & Hin).
  apply record_key_injective in Hi. apply in_seq in Hin. lia.
Qed.

(** ** What no request does *)

Lemma answer_run {A} (wrap : A -> body) (m : M A) st :
  answer wrap m st
  = (match fst (m st) with inl e => inl e | inr a => inr (wrap a) end,
     snd (m st)).
Proof. unfold answer. run. now destruct (m st) as [[e|a] st']. Qed.

Lemma query_warranty_store today query st :
  snd (query_warranty today query st) = st.
Proof.
  unfold query_warranty. run.
  destruct (Dict.get (products st) _) as [product|]; [|reflexivity]. simpl.
  destruct (opt_str_truthy (WarrantyQuery.customer_email query)); simpl;
    destruct (Dict.get (customers st) _) as [customer|]; simpl;
    try reflexivity.
  now destruct (differs _ _).
Qed.

Lemma post_warranty_query_store today serial_number customer_email st :
  snd (post_warranty_query today serial_number customer_email st) = st.
Proof.
  unfold post_warranty_query.
  destruct (WarrantyQuery.validate_serial_number serial_number);
    [reflexivity|].
  destruct customer_email as [[e|]|];
    [apply query_warranty_store|reflexivity|apply query_warranty_store].
Qed.

Lemma reads_keep_store today req st :
  writes req = false -> snd (handle today req st) = st.
Proof.
  destruct req as [cid|cid|sn mail|record|sn cid status|rid update|];
    try discriminate; intros _; unfold handle; rewrite answer_run;
    cbn [snd].
  - unfold get_customer_by_id. run.
    now destruct (Dict.get (customers st) cid).
  - unfold get_customer_purchases. run. now destruct (filter _ _).
  - apply post_warranty_query_store.
  - now rewrite get_service_records_run.
  - reflexivity.
Qed.

(** X1. Whatever the request and the answer: customers and products are
    left as they were; a request answered with an error leaves the whole
    store as it was; and only the creation and the update of a service record
    change anything at all. *)
Theorem handle_frame today req st :
  customers (snd (handle today req st)) = customers st
  /\ products (snd (handle today req st)) = products st
  /\ (forall e, fst (handle today req st) = inl e ->
                snd (handle today req st) = st)
  /\ match req with
     | POST_service_records _ | PUT_service_records _ _ => True
     | _ => snd (handle today req st) = st
     end.
Proof.
  destruct req as [cid|cid|sn mail|record|sn cid status|rid update|];
    unfold handle; rewrite answer_run.
  - unfold get_customer_by_id. run.
    destruct (Dict.get (customers st) cid); simpl; auto.
  - unfold get_customer_purchases. run.
    destruct (filter _ _); simpl; auto.
  - rewrite post_warranty_query_store. auto.
  - unfold create_service_record. run.
    destruct (Dict.get (products st) _); simpl; repeat split; auto.
    discriminate.
  - rewrite get_service_records_run. simpl. auto.
  - unfold update_service_record. run.
    destruct (Dict.get (service_records st) rid); simpl; repeat split; auto.
    discriminate.
  - unfold ping_handler. run. auto.
Qed.

(** ** Consistency is kept *)

Lemma store_ok_unfold st :
  store_ok st <->
  keyed_by Customer.customer_id (customers st) = true
  /\ keyed_by Product.serial_number (products st) = true
  /\ forallb (product_ok st) (Dict.values (products st)) = true
  /\ Dict.keys (service_records st)
     = map record_key (seq 1 (Dict.len (service_records st)))
  /\ keyed_by ServiceRecord.record_id (service_records st) = true
  /\ forallb (record_ok st) (Dict.values (service_records st)) = true.
Proof.
  unfold store_ok, store_okb. rewrite !andb_true_iff, same_keys_eq. tauto.
Qed.

Lemma keyed_by_get {V} (key : V -> string) (d : Dict.t V) k v :
  keyed_by key d = true -> Dict.get d k = Some v -> key v = k.
Proof.
  unfold keyed_by. intros Hd G. apply get_in in G.
  rewrite forallb_forall in Hd. apply Hd in G. now apply String.eqb_eq in G.
Qed.

Lemma forallb_get {V} (Q : V -> bool) (d : Dict.t V) k v :
  forallb Q (Dict.values d) = true -> Dict.get d k = Some v -> Q v = true.
Proof.
  intros Hd G. rewrite forallb_forall in Hd. apply Hd.
  now apply get_in_values in G.
Qed.

Lemma crm_data_ok : store_ok crm_data.
Proof. reflexivity. Qed.

(** A store that differs from a consistent one in its service records is
    consistent when the new records are. *)
Lemma store_ok_records st d :
  store_ok st ->
  Dict.keys d = map record_key (seq 1 (Dict.len d)) ->
  keyed_by ServiceRecord.record_id d = true ->
  forallb (record_ok st) (Dict.values d) = true ->
  store_ok (mk_CRMData (customers st) (products st) d).
Proof.
  rewrite !store_ok_unfold. simpl.
  intros (Hc & Hp & Hpo & _ & _ & _) Hk Hid Hr. repeat split; assumption.
Qed.

Lemma create_keeps_ok st record :
  store_ok st -> store_ok (snd (create_service_record record st)).
Proof.
  intros Hok. unfold create_service_record. run.
  destruct (Dict.get (products st) _) as [product|] eqn:Hp;
    [|assumption]. simpl.
  pose proof Hok as Hparts. apply store_ok_unfold in Hparts.
  destruct Hparts as (_ & _ & _ & Hk & Hid & Hr).
  rewrite next_record_key.
  assert (Dict.get (service_records st)
                   (record_key (S (Dict.len (service_records st)))) = None)
    as Hfresh.
  { apply not_in_keys_get. rewrite Hk. apply record_key_fresh. }
  apply store_ok_records; [assumption|..].
  - rewrite keys_set_absent, len_set_absent by assumption.
    rewrite seq_S, map_app, <- Hk. reflexivity.
  - apply forallb_set; [assumption|]. simpl. apply String.eqb_refl.
  - rewrite forallb_values in *. apply forallb_set; [assumption|].
    unfold record_ok. simpl. rewrite Hp, String.eqb_refl. reflexivity.
Qed.

Lemma known_status_value s : known_status (ServiceStatus.value s) = true.
Proof. now destruct s. Qed.

Lemma update_keeps_ok st record_id update :
  store_ok st -> store_ok (snd (update_service_record record_id update st)).
Proof.
  intros Hok. unfold update_service_record. run.
  destruct (Dict.get (service_records st) record_id) as [record|] eqn:Hg;
    [|assumption]. simpl.
  pose proof Hok as Hparts. apply store_ok_unfold in Hparts.
  destruct Hparts as (_ & _ & _ & Hk & Hid & Hr).
  apply store_ok_records; [assumption|..].
  - rewrite keys_set_present, len_set_present by congruence. assumption.
  - apply forallb_set; [assumption|]. simpl.
    replace (ServiceRecord.record_id (apply_update update record))
      with (ServiceRecord.record_id record)
      by (unfold apply_update; now destruct update as [[?|] [?|] [?|] [?|]]).
    assert (ServiceRecord.record_id record = record_id) as ->
      by (eapply keyed_by_get; eassumption).
    apply String.eqb_refl.
  - assert (record_ok st record = true) as Hrec
      by (eapply forallb_get; eassumption).
    rewrite forallb_values in *. apply forallb_set; [assumption|].
    unfold record_ok in *. simpl.
    replace (ServiceRecord.serial_number (apply_update update record))
      with (ServiceRecord.serial_number record)
      by (unfold apply_update; now destruct update as [[?|] [?|] [?|] [?|]]).
    replace (ServiceRecord.customer_id (apply_update update record))
      with (ServiceRecord.customer_id record)
      by (unfold apply_update; now destruct update as [[?|] [?|] [?|] [?|]]).
    apply andb_true_iff in Hrec. destruct Hrec as [Hrec Hst]. rewrite Hrec.
    simpl. unfold apply_update.
    destruct update as [[?|] [s|] [?|] [?|]]; simpl;
      auto using known_status_value.
Qed.

Lemma handle_keeps_ok today req st :
  store_ok st -> store_ok (snd (handle today req st)).
Proof.
  intros Hok. destruct (writes req) eqn:Hw.
  - destruct req; try discriminate; unfold handle; rewrite answer_run;
      simpl; [now apply create_keeps_ok|now apply update_keeps_ok].
  - now rewrite reads_keep_store.
Qed.

(** X2. Consistency of the store is kept by every sequence of requests:
    when values are stored under the key they carry, every product has its
    owner on file and valid dates, the record keys are SRV001, SRV002, ... in
    order, and every service record is for a product on file, carries that
    product's owner and has one of the three statuses, then the same holds
    after the requests are served.  The sample store is such a store. *)
Theorem serve_keeps_ok reqs st : store_ok st -> store_ok (serve reqs st).
Proof.
  revert st. induction reqs as [|[today req] reqs IH]; intros st Hok; simpl.
  - assumption.
  - apply IH. now apply handle_keeps_ok.
Qed.

Lemma serve_keeps_ok_witness :
  store_ok
    (serve
       [(mk_date 2024 9 1,
         POST_service_records
           (ServiceRecordCreate.make "SN20240004" "repair" "broken" "Wang"
              (mk_datetime (mk_date 2024 9 3) 9 30 0) 90));
        (mk_date 2024 9 2,
         PUT_service_records "SRV003"
           (ServiceRecordUpdate.make None (Some ServiceStatus.CANCELLED) None
                                     None));
        (mk_date 2024 9 2, GET_customer "CUST404")]
       crm_data).
Proof.
  apply serve_keeps_ok. reflexivity.
Defined.

(** ** Creation in a consistent store *)

(** X3. In a consistent store the identifier that [create_service_record]
    generates is not in use: the new record goes to the end of the listing
    order, no record on file is replaced or changed, and the number of
    records grows by one. *)
Theorem create_appends st record product :
  store_ok st ->
  Dict.get (products st) (ServiceRecordCreate.serial_number record)
  = Some product ->
  exists created,
    fst (create_service_record record st) = inr created
    /\ ServiceRecord.record_id created
       = record_key (S (Dict.len (service_records st)))
    /\ Dict.get (service_records st) (ServiceRecord.record_id created) = None
    /\ Dict.values (service_records (snd (create_service_record record st)))
       = (Dict.values (service_records st) ++ [created])%list
    /\ Dict.len (service_records (snd (create_service_record record st)))
       = S (Dict.len (service_records st))
    /\ forall k r,
         Dict.get (service_records st) k = Some r ->
         Dict.get (service_records (snd (create_service_record record st))) k
         = Some r.
Proof.
  intros Hok Hp. apply store_ok_unfold in Hok.
  destruct Hok as (_ & _ & _ & Hk & _ & _).
  unfold create_service_record. run. rewrite Hp. simpl.
  rewrite next_record_key.
  assert (Dict.get (service_records st)
                   (record_key (S (Dict.len (service_records st)))) = None)
    as Hfresh.
  { apply not_in_keys_get. rewrite Hk. apply record_key_fresh. }
  eexists. split; [reflexivity|]. simpl.
  split; [reflexivity|]. split; [assumption|].
  split; [now apply values_set_absent|].
  split; [now apply len_set_absent|].
  intros k r Hg. rewrite get_set_other; [assumption|].
  intros ->. congruence.
Qed.

Lemma create_appends_witness :
  exists created,
    fst (create_service_record
           (ServiceRecordCreate.make "SN20240007" "repair" "no power" "Li"
              (mk_datetime (mk_date 2024 10 2) 14 0 0) 45)
           crm_data)
    = inr created
    /\ ServiceRecord.record_id created = "SRV003"
    /\ Dict.get (service_records crm_data) (ServiceRecord.record_id created)
       = None.
Proof.
  edestruct (@create_appends crm_data
               (ServiceRecordCreate.make "SN20240007" "repair" "no power" "Li"
                  (mk_datetime (mk_date 2024 10 2) 14 0 0) 45))
    as (created & Hrun & Hid & Hfresh & _).
  - reflexivity.
  - reflexivity.
  - exists created. split; [exact Hrun|]. split; [exact Hid|exact Hfresh].
Defined.

(** ** Records are never removed *)

Lemma keys_set_incl {V} (d : Dict.t V) k v :
  incl (Dict.keys d) (Dict.keys (Dict.set d k v))
  /\ (Dict.len d <= Dict.len (Dict.set d k v))%nat.
Proof.
  destruct (Dict.get d k) eqn:G.
  - rewrite keys_set_present, len_set_present by congruence.
    split; [apply incl_refl|apply Nat.le_refl].
  - rewrite keys_set_absent, len_set_absent by assumption.
    split; [now apply incl_appl, incl_refl|apply Nat.le_succ_diag_r].
Qed.

Lemma handle_keeps_keys today req st :
  incl (Dict.keys (service_records st))
       (Dict.keys (service_records (snd (handle today req st))))
  /\ (Dict.len (service_records st)
      <= Dict.len (service_records (snd (handle today req st))))%nat.
Proof.
  destruct (writes req) eqn:Hw.
  - destruct req; try discriminate; unfold handle; rewrite answer_run;
      cbn [snd].
    + unfold create_service_record. run.
      destruct (Dict.get (products st) _); simpl;
        [apply keys_set_incl|split; [apply incl_refl|apply Nat.le_refl]].
    + unfold update_service_record. run.
      destruct (Dict.get (service_records st) _); simpl;
        [apply keys_set_incl|split; [apply incl_refl|apply Nat.le_refl]].
  - rewrite reads_keep_store by assumption.
    split; [apply incl_refl|apply Nat.le_refl].
Qed.

(** X5. No sequence of requests removes a service record: every record
    identifier on file is still on file afterwards, and the number of records
    never goes down. *)
Theorem serve_keeps_records reqs st :
  incl (Dict.keys (service_records st))
       (Dict.keys (service_records (serve reqs st)))
  /\ (Dict.len (service_records st)
      <= Dict.len (service_records (serve reqs st)))%nat.
Proof.
  revert st. induction reqs as [|[today req] reqs IH]; intros st; simpl.
  - split; [apply incl_refl|apply Nat.le_refl].
  - destruct (handle_keeps_keys today req st) as [Hi Hl].
    destruct (IH (snd (handle today req st))) as [Hi' Hl'].
    split; [eapply incl_tran; eassumption|eapply Nat.le_trans; eassumption].
Qed.

(** ** Lookups across the three dictionaries *)

Lemma product_ok_owner st p :
  product_ok st p = true ->
  exists customer,
    Dict.get (customers st) (Product.customer_id p) = Some customer.
Proof.
  unfold product_ok. destruct (Dict.get (customers st) _) as [c|];
    [now exists c|discriminate].
Qed.

(** X6. In a consistent store the defensive "Customer not found" answer of
    [query_warranty] is never given: the only 404 is for a serial number that
    is not on file, and a query without e-mail for a serial number on file is
    always answered, with that serial number and the owner's name. *)
Theorem query_warranty_in_ok_store st today query :
  store_ok st ->
  (forall e, fst (query_warranty today query st) = inl e ->
             status_code e = NotFound ->
             Dict.get (products st) (WarrantyQuery.serial_number query) = None
             /\ detail e = "Product not found")
  /\ (forall product,
        Dict.get (products st) (WarrantyQuery.serial_number query)
        = Some product ->
        WarrantyQuery.customer_email query = None ->
        exists customer response,
          Dict.get (customers st) (Product.customer_id product)
          = Some customer
          /\ query_warranty today query st = (inr response, st)
          /\ WarrantyResponse.serial_number response
             = WarrantyQuery.serial_number query
          /\ WarrantyResponse.customer_name response
             = Customer.name customer).
Proof.
  intros Hok. apply store_ok_unfold in Hok.
  destruct Hok as (_ & Hpk & Hpo & _ & _ & _).
  unfold query_warranty. run. split.
  - intros e.
    destruct (Dict.get (products st) _) as [product|] eqn:Hp; simpl.
    + assert (product_ok st product = true) as Hown
        by (eapply forallb_get; eassumption).
      apply product_ok_owner in Hown. destruct Hown as (customer & Hc).
      rewrite Hc.
      destruct (opt_str_truthy _); simpl;
        [destruct (differs _ _); simpl|]; intros [= <-]; discriminate.
    + intros [= <-] _. auto.
  - intros product Hp Hmail. rewrite Hp, Hmail. simpl.
    assert (product_ok st product = true) as Hown
      by (eapply forallb_get; eassumption).
    apply product_ok_owner in Hown. destruct Hown as (customer & Hc).
    rewrite Hc. simpl. eexists. eexists.
    split; [reflexivity|]. split; [reflexivity|]. simpl.
    split; [|reflexivity]. eapply keyed_by_get; eassumption.
Qed.

Lemma query_warranty_in_ok_store_witness :
  exists customer response,
    Dict.get (customers crm_data) "CUST004" = Some customer
    /\ query_warranty (mk_date 2024 10 1)
         (WarrantyQuery.make "SN20240008" None) crm_data
       = (inr response, crm_data)
    /\ WarrantyResponse.serial_number response = "SN20240008"
    /\ WarrantyResponse.customer_name response = Customer.name customer.
Proof.
  edestruct (proj2 (@query_warranty_in_ok_store crm_data (mk_date 2024 10 1)
                      (WarrantyQuery.make "SN20240008" None) eq_refl))
    as (customer & response & Hc & Hrun & Hsn & Hname).
  - reflexivity.
  - reflexivity.
  - exists customer, response. repeat split; assumption.
Defined.

Lemma purchases_contain st product :
  In product (Dict.values (products st)) ->
  exists purchases,
    get_customer_purchases (Product.customer_id product) st
    = (inr purchases, st)
    /\ In product purchases.
Proof.
  intros Hp. unfold get_customer_purchases. run.
  assert (In product
             (filter (fun p => String.eqb (Product.customer_id p)
                                          (Product.customer_id product))
                     (Dict.values (products st)))) as Hin.
  { apply filter_In. split; [assumption|apply String.eqb_refl]. }
  destruct (filter _ _) as [|p l] eqn:F; [contradiction|].
  simpl. eexists. split; [reflexivity|assumption].
Qed.

(** X7. Every product on file is found through its owner:
    [get_customer_purchases] called with the [customer_id] of a product of
    the store does not fail, and the product is in the list it returns. *)
Theorem purchases_of_owner st serial_number product :
  Dict.get (products st) serial_number = Some product ->
  exists purchases,
    get_customer_purchases (Product.customer_id product) st
    = (inr purchases, st)
    /\ In product purchases.
Proof.
  intros Hp. apply purchases_contain. now apply get_in_values in Hp.
Qed.

Lemma purchases_of_owner_witness :
  exists purchases,
    get_customer_purchases "CUST005" crm_data = (inr purchases, crm_data)
    /\ In "SN20240010" (map Product.serial_number purchases).
Proof.
  edestruct (@purchases_of_owner crm_data "SN20240010")
    as (purchases & Hrun & Hin).
  - reflexivity.
  - exists purchases. split; [exact Hrun|].
    apply (in_map Product.serial_number) in Hin. exact Hin.
Defined.

Lemma in_get {V} (d : Dict.t V) k v :
  Dict.wf d -> In (k, v) d -> Dict.get d k = Some v.
Proof.
  unfold Dict.wf, Dict.keys.
  induction d as [|[k0 v0] d IH]; simpl; [tauto|].
  intros Hnd Hin. inversion Hnd as [|? ? Hk0 Hnd']; subst.
  destruct Hin as [[= -> ->]|Hin]; [now rewrite String.eqb_refl|].
  destruct (String.eqb k0 k) eqn:E; [|now apply IH].
  apply String.eqb_eq in E. subst k0. contradiction Hk0.
  change k with (fst (k, v)). now apply in_map.
Qed.

(** X8. In a consistent store a customer with purchases is on file: when
    [get_customer_purchases] answers with a list, [get_customer_by_id] for
    the same identifier answers with a customer carrying that identifier,
    and every product of the list has that customer and is the product
    stored under its own serial number (the keys of the product dictionary
    being pairwise different, as those of a dictionary are). *)
Theorem purchases_imply_customer st customer_id purchases :
  store_ok st ->
  Dict.wf (products st) ->
  fst (get_customer_purchases customer_id st) = inr purchases ->
  (exists customer,
     get_customer_by_id customer_id st = (inr customer, st)
     /\ Customer.customer_id customer = customer_id)
  /\ forall p, In p purchases ->
               Product.customer_id p = customer_id
               /\ Dict.get (products st) (Product.serial_number p) = Some p.
Proof.
  intros Hok Hwf. apply store_ok_unfold in Hok.
  destruct Hok as (Hck & Hpk & Hpo & _ & _ & _).
  unfold get_customer_purchases, get_customer_by_id. run.
  destruct (filter _ _) as [|p0 l] eqn:F; simpl; [discriminate|].
  intros [= <-].
  assert (forall p, In p (p0 :: l) ->
            In p (Dict.values (products st))
            /\ Product.customer_id p = customer_id) as Hall.
  { intros p Hin. rewrite <- F in Hin. apply filter_In in Hin.
    now rewrite String.eqb_eq in Hin. }
  split.
  - destruct (Hall p0 (or_introl eq_refl)) as [Hin Hcid].
    rewrite forallb_forall in Hpo. apply Hpo, product_ok_owner in Hin.
    destruct Hin as (customer & Hc). rewrite Hcid in Hc. rewrite Hc.
    exists customer. split; [reflexivity|].
    eapply keyed_by_get; eassumption.
  - intros p Hin. destruct (Hall p Hin) as [Hv Hcid]. split; [assumption|].
    unfold Dict.values in Hv. apply in_map_iff in Hv.
    destruct Hv as ([k v] & <- & Hkv). simpl.
    unfold keyed_by in Hpk. rewrite forallb_forall in Hpk.
    pose proof (Hpk _ Hkv) as Hkey. simpl in Hkey.
    apply String.eqb_eq in Hkey. rewrite Hkey.
    now apply in_get.
Qed.

Lemma purchases_imply_customer_witness :
  (exists customer,
     get_customer_by_id "CUST002" crm_data = (inr customer, crm_data)
     /\ Customer.customer_id customer = "CUST002")
  /\ forall p,
       In p (filter (fun p => String.eqb (Product.customer_id p) "CUST002")
                    (Dict.values (products crm_data))) ->
       Product.customer_id p = "CUST002"
       /\ Dict.get (products crm_data) (Product.serial_number p) = Some p.
Proof.
  apply (@purchases_imply_customer crm_data "CUST002").
  - reflexivity.
  - unfold Dict.wf. simpl.
    repeat (constructor; [simpl; intuition discriminate|]). constructor.
  - reflexivity.
Defined.

(** X9. In a consistent store every service record that a listing returns
    points to a product on file whose owner is the record's customer, and
    [get_customer_purchases] for that customer returns this product. *)
Theorem listed_records_refer st serial_number customer_id status records r :
  store_ok st ->
  fst (get_service_records serial_number customer_id status st)
  = inr records ->
  In r records ->
  exists product purchases,
    Dict.get (products st) (ServiceRecord.serial_number r) = Some product
    /\ Product.customer_id product = ServiceRecord.customer_id r
    /\ get_customer_purchases (ServiceRecord.customer_id r) st
       = (inr purchases, st)
    /\ In product purchases.
Proof.
  intros Hok. apply store_ok_unfold in Hok.
  destruct Hok as (_ & _ & _ & _ & _ & Hr).
  rewrite get_service_records_run. simpl. intros [= <-] Hin.
  apply filter_In in Hin. destruct Hin as [Hin _].
  rewrite forallb_forall in Hr. apply Hr in Hin. unfold record_ok in Hin.
  destruct (Dict.get (products st) (ServiceRecord.serial_number r))
    as [product|] eqn:Hp; [|discriminate].
  apply andb_true_iff in Hin. destruct Hin as [Hcid _].
  apply String.eqb_eq in Hcid.
  destruct (@purchases_contain st product) as (purchases & Hrun & Hmem);
    [now apply get_in_values in Hp|].
  rewrite Hcid in Hrun. now exists product, purchases.
Qed.

Lemma listed_records_refer_witness :
  exists product purchases,
    Dict.get (products crm_data) "SN20240003" = Some product
    /\ Product.customer_id product = "CUST002"
    /\ get_customer_purchases "CUST002" crm_data = (inr purchases, crm_data)
    /\ In product purchases.
Proof.
  edestruct (@listed_records_refer crm_data None None
               (Some ServiceStatus.SCHEDULED))
    as (product & purchases & H).
  - reflexivity.
  - reflexivity.
  - left. reflexivity.
  - exists product, purchases. exact H.
Defined.

(** ** How updates compose *)

Lemma apply_update_merge u1 u2 record :
  apply_update u2 (apply_update u1 record)
  = apply_update (merge_updates u1 u2) record.
Proof.
  unfold apply_update.
  destruct u1 as [[?|] [?|] [?|] [?|]], u2 as [[?|] [?|] [?|] [?|]];
    reflexivity.
Qed.

Lemma update_run st record_id update record :
  Dict.get (service_records st) record_id = Some record ->
  update_service_record record_id update st
  = (inr (apply_update update record),
     mk_CRMData (customers st) (products st)
       (Dict.set (service_records st) record_id
                 (apply_update update record))).
Proof. intros Hg. unfold update_service_record. run. now rewrite Hg. Qed.

(** X10. Two updates of the same record in a row have the effect of one
    update that carries, for each field, the later of the two supplied
    values: same answer and same store. *)
Theorem update_twice_merges st record_id u1 u2 record :
  Dict.get (service_records st) record_id = Some record ->
  update_service_record record_id u2
    (snd (update_service_record record_id u1 st))
  = update_service_record record_id (merge_updates u1 u2) st.
Proof.
  intros Hg. rewrite (@update_run st record_id u1 record Hg). cbn [snd].
  rewrite (@update_run st record_id (merge_updates u1 u2) record Hg).
  erewrite update_run by (simpl; apply get_set_same).
  simpl. now rewrite apply_update_merge, set_set.
Qed.

Lemma update_twice_merges_witness :
  update_service_record "SRV002"
    (ServiceRecordUpdate.make None (Some ServiceStatus.COMPLETED) (Some 50%Z)
                              None)
    (snd (update_service_record "SRV002"
            (ServiceRecordUpdate.make None (Some ServiceStatus.CANCELLED) None
                                      (Some "customer away"))
            crm_data))
  = update_service_record "SRV002"
      (ServiceRecordUpdate.make None (Some ServiceStatus.COMPLETED)
                                (Some 50%Z) (Some "customer away"))
      crm_data.
Proof.
  eapply (@update_twice_merges crm_data "SRV002"
            (ServiceRecordUpdate.make None (Some ServiceStatus.CANCELLED) None
                                      (Some "customer away"))
            (ServiceRecordUpdate.make None (Some ServiceStatus.COMPLETED)
                                      (Some 50%Z) None)).
  reflexivity.
Defined.

Lemma set_set_other {V} (d : Dict.t V) k1 k2 v1 v2 :
  k1 <> k2 -> Dict.get d k1 <> None ->
  Dict.set (Dict.set d k1 v1) k2 v2 = Dict.set (Dict.set d k2 v2) k1 v1.
Proof.
  intros Hne. induction d as [|[k v] d IH]; simpl; [congruence|].
  destruct (String.eqb k k1) eqn:E1; destruct (String.eqb k k2) eqn:E2;
    simpl; rewrite ?E1, ?E2; try reflexivity.
  - apply String.eqb_eq in E1, E2. congruence.
  - intros Hg. now rewrite IH.
Qed.

(** X11. Updates of two different records on file can be made in either
    order: the store is the same afterwards. *)
Theorem updates_commute st k1 k2 u1 u2 r1 r2 :
  k1 <> k2 ->
  Dict.get (service_records st) k1 = Some r1 ->
  Dict.get (service_records st) k2 = Some r2 ->
  snd (update_service_record k2 u2 (snd (update_service_record k1 u1 st)))
  = snd (update_service_record k1 u1 (snd (update_service_record k2 u2 st))).
Proof.
  intros Hne H1 H2.
  rewrite (@update_run st k1 u1 r1 H1), (@update_run st k2 u2 r2 H2). cbn [snd].
  erewrite (@update_run _ k2 u2)
    by (simpl; rewrite get_set_other by congruence; eassumption).
  erewrite (@update_run _ k1 u1)
    by (simpl; rewrite get_set_other by congruence; eassumption).
  simpl. f_equal. apply set_set_other; congruence.
Qed.

Lemma updates_commute_witness :
  snd (update_service_record "SRV002"
         (ServiceRecordUpdate.make None (Some ServiceStatus.COMPLETED) None
                                   None)
         (snd (update_service_record "SRV001"
                 (ServiceRecordUpdate.make None None None (Some "checked"))
                 crm_data)))
  = snd (update_service_record "SRV001"
           (ServiceRecordUpdate.make None None None (Some "checked"))
           (snd (update_service_record "SRV002"
                   (ServiceRecordUpdate.make None
                      (Some ServiceStatus.COMPLETED) None None)
                   crm_data))).
Proof.
  eapply (@updates_commute crm_data "SRV001" "SRV002").
  - discriminate.
  - reflexivity.
  - reflexivity.
Defined.

(** ** Listings before and after a write *)

Lemma filter_map_replace {A B} (P : A -> bool) (f : A -> B) before x y after :
  P x = P y -> f x = f y ->
  map f (filter P (before ++ y :: after))
  = map f (filter P (before ++ x :: after)).
Proof.
  intros HP Hf. rewrite !filter_app, !map_app. simpl. rewrite HP.
  destruct (P y); simpl; now rewrite ?Hf.
Qed.

Lemma values_set_split {V} (d : Dict.t V) k v v' :
  Dict.get d k = Some v ->
  exists before after,
    Dict.values d = (before ++ v :: after)%list
    /\ Dict.values (Dict.set d k v') = (before ++ v' :: after)%list.
Proof.
  intros G. destruct (@set_present_split V d k v v' G) as (b & a & Hd & Hs).
  exists (map snd b), (map snd a). unfold Dict.values.
  rewrite Hs. rewrite Hd at 1. now rewrite !map_app.
Qed.

(** X12. An update moves no record between products or customers and does
    not reorder the listing: for every choice of the [serial_number] and
    [customer_id] filters, the listing without status filter names the same
    record identifiers, in the same order, before and after an update. *)
Theorem update_keeps_listing st record_id update serial_number customer_id :
  let ids st' :=
    match fst (get_service_records serial_number customer_id None st') with
    | inr records => map ServiceRecord.record_id records
    | inl _ => []
    end in
  ids (snd (update_service_record record_id update st)) = ids st.
Proof.
  intros ids. unfold ids. rewrite !get_service_records_run. cbn [fst].
  destruct (Dict.get (service_records st) record_id) as [record|] eqn:Hg.
  - rewrite (@update_run st record_id update record Hg). cbn [snd service_records].
    destruct (@values_set_split _ (service_records st) record_id record
                (apply_update update record) Hg)
      as (before & after & -> & ->).
    apply filter_map_replace;
      unfold apply_update; now destruct update as [[?|] [?|] [?|] [?|]].
  - unfold update_service_record. run. now rewrite Hg.
Qed.

(** ** One status per record *)

Lemma one_status_each (l : list ServiceRecord.t) :
  forallb (fun r => known_status (ServiceRecord.status r)) l = true ->
  List.length l
  = (List.length (filter (fun r => String.eqb (ServiceRecord.status r)
                                     "scheduled") l)
     + List.length (filter (fun r => String.eqb (ServiceRecord.status r)
                                       "completed") l)
     + List.length (filter (fun r => String.eqb (ServiceRecord.status r)
                                       "cancelled") l))%nat.
Proof.
  intros Hl.
  induction l as [|r l IH]; simpl in *; [reflexivity|].
  apply andb_true_iff in Hl. destruct Hl as [Hr Hl].
  specialize (IH Hl). unfold known_status in Hr. simpl in Hr.
  destruct (String.eqb_spec (ServiceRecord.status r) "scheduled") as [E1|E1];
    destruct (String.eqb_spec (ServiceRecord.status r) "completed") as [E2|E2];
    destruct (String.eqb_spec (ServiceRecord.status r) "cancelled") as [E3|E3];
    simpl in *; try congruence; try discriminate; lia.
Qed.

Lemma listing_by_status st status :
  fst (get_service_records None None status st)
  = inr match status with
        | None => Dict.values (service_records st)
        | Some s =>
            filter (fun r => String.eqb (ServiceRecord.status r)
                                        (ServiceStatus.value s))
                   (Dict.values (service_records st))
        end.
Proof.
  rewrite get_service_records_run. cbn [fst]. f_equal.
  destruct status as [s|].
  - apply filter_ext. intros r. unfold skips, differs. simpl.
    destruct s; simpl; now rewrite negb_involutive.
  - exact (filter_all _).
Qed.

(** X13. In a consistent store every service record is listed under exactly
    one of the three statuses: the listings for scheduled, completed and
    cancelled together are as long as the listing without filter. *)
Theorem status_listings_partition st :
  store_ok st ->
  let count status :=
    match fst (get_service_records None None status st) with
    | inr records => List.length records
    | inl _ => 0%nat
    end in
  count None
  = (count (Some ServiceStatus.SCHEDULED)
     + count (Some ServiceStatus.COMPLETED)
     + count (Some ServiceStatus.CANCELLED))%nat.
Proof.
  intros Hok count. unfold count. clear count.
  apply store_ok_unfold in Hok. destruct Hok as (_ & _ & _ & _ & _ & Hr).
  rewrite !listing_by_status. simpl ServiceStatus.value.
  apply one_status_each.
  rewrite forallb_forall in *. intros r Hin. apply Hr in Hin.
  unfold record_ok in Hin. apply andb_true_iff in Hin. tauto.
Qed.

Lemma status_listings_partition_witness :
  List.length (Dict.values (service_records crm_data)) = 2%nat
  /\ (let count status :=
        match fst (get_service_records None None status crm_data) with
        | inr records => List.length records
        | inl _ => 0%nat
        end in
      count None
      = (count (Some ServiceStatus.SCHEDULED)
         + count (Some ServiceStatus.COMPLETED)
         + count (Some ServiceStatus.CANCELLED))%nat).
Proof.
  split; [reflexivity|].
  apply (@status_listings_partition crm_data). reflexivity.
Defined.

(** ** The warranty status as time passes *)

Lemma date_ltb_iff a b :
  valid_date a -> valid_date b ->
  (date_ltb a b = true <-> (toordinal a < toordinal b)%Z).
Proof.
  intros Ha Hb. split; [now apply date_ltb_toordinal|].
  intros Hlt. destruct (date_ltb a b) eqn:Hab; [reflexivity|].
  pose proof (not_before_days_nonneg Ha Hb Hab) as Hge.
  unfold date_sub_days in Hge. lia.
Qed.

Lemma status_text_of_days warranty_end_date today :
  valid_date warranty_end_date -> valid_date today ->
  status_text_of warranty_end_date today
  = (let days := (toordinal warranty_end_date - toordinal today)%Z in
     if (days <? 0)%Z then WARRANTY_EXPIRED
     else if (days <=? 30)%Z then WARRANTY_EXPIRING_SOON
          else WARRANTY_VALID).
Proof.
  intros He Ht. unfold status_text_of, date_sub_days. cbv zeta.
  pose proof (date_ltb_iff He Ht) as Hiff.
  destruct (date_ltb warranty_end_date today);
    destruct (Z.ltb_spec (toordinal warranty_end_date - toordinal today) 0);
    try reflexivity.
  - assert (toordinal warranty_end_date < toordinal today)%Z
      by now apply Hiff.
    lia.
  - assert (true = true -> False) as F; [|now contradiction F].
    intros _. assert (false = true) by (apply Hiff; lia). discriminate.
Qed.

(** X14. The warranty status only moves forward in time.  For a warranty
    end date and two days of which the second is not before the first: a
    warranty that is expired on the first day is expired on the second, and a
    warranty that is still valid on the second day was valid on the first. *)
Theorem status_text_moves_forward warranty_end_date day1 day2 :
  valid_date warranty_end_date -> valid_date day1 -> valid_date day2 ->
  date_ltb day2 day1 = false ->
  (status_text_of warranty_end_date day1 = WARRANTY_EXPIRED ->
   status_text_of warranty_end_date day2 = WARRANTY_EXPIRED)
  /\ (status_text_of warranty_end_date day2 = WARRANTY_VALID ->
      status_text_of warranty_end_date day1 = WARRANTY_VALID).
Proof.
  intros He H1 H2 Hle.
  pose proof (not_before_days_nonneg H2 H1 Hle) as Hord.
  unfold date_sub_days in Hord.
  rewrite !status_text_of_days by assumption. cbv zeta.
  destruct (Z.ltb_spec (toordinal warranty_end_date - toordinal day1) 0);
    destruct (Z.ltb_spec (toordinal warranty_end_date - toordinal day2) 0);
    destruct (Z.leb_spec (toordinal warranty_end_date - toordinal day1) 30);
    destruct (Z.leb_spec (toordinal warranty_end_date - toordinal day2) 30);
    split; intros Hs; try reflexivity; try discriminate Hs; lia.
Qed.

Lemma status_text_moves_forward_witness :
  (status_text_of (mk_date 2024 8 15) (mk_date 2024 8 16) = WARRANTY_EXPIRED ->
   status_text_of (mk_date 2024 8 15) (mk_date 2025 2 28) = WARRANTY_EXPIRED)
  /\ (status_text_of (mk_date 2024 8 15) (mk_date 2025 2 28) = WARRANTY_VALID ->
      status_text_of (mk_date 2024 8 15) (mk_date 2024 8 16) = WARRANTY_VALID).
Proof.
  apply (@status_text_moves_forward (mk_date 2024 8 15) (mk_date 2024 8 16)
           (mk_date 2025 2 28)); reflexivity.
Defined.

(** ** The e-mail check and the validation of the serial number *)

(** X15. Giving the owner's own e-mail address changes nothing: for a
    product and its owner on file, the query with exactly the owner's address
    is answered as the query without address. *)
Theorem query_with_owner_email st today serial_number product customer :
  Dict.get (products st) serial_number = Some product ->
  Dict.get (customers st) (Product.customer_id product) = Some customer ->
  query_warranty today
    (WarrantyQuery.make serial_number (Some (Customer.email customer))) st
  = query_warranty today (WarrantyQuery.make serial_number None) st.
Proof.
  intros Hp Hc. unfold query_warranty. run. rewrite Hp. simpl.
  destruct (str_truthy (Customer.email customer)); [|reflexivity].
  rewrite Hc. simpl. now rewrite String.eqb_refl.
Qed.

Lemma query_with_owner_email_witness :
  query_warranty (mk_date 2024 8 1)
    (WarrantyQuery.make "SN20240005" (Some "wang.fang@example.com")) crm_data
  = query_warranty (mk_date 2024 8 1)
      (WarrantyQuery.make "SN20240005" None) crm_data.
Proof.
  exact (@query_with_owner_email crm_data (mk_date 2024 8 1) "SN20240005"
           _ _ eq_refl eq_refl).
Defined.



(** ** Loading the sample lists *)

Lemma get_app {V} (d e : Dict.t V) k :
  Dict.get (d ++ e)%list k
  = match Dict.get d k with
    | Some v => Some v
    | None => Dict.get e k
    end.
Proof.
  induction d as [|[k' v'] d IH]; simpl; [reflexivity|].
  now destruct (String.eqb k' k).
Qed.

Lemma load_distinct_onto {V} (key : V -> string) data :
  forall d,
    NoDup (map key data) ->
    (forall x, In x data -> Dict.get d (key x) = None) ->
    load key data d = (d ++ map (fun x => (key x, x)) data)%list.
Proof.
  unfold load. induction data as [|x data IH]; intros d Hnd Hnew; simpl.
  - now rewrite app_nil_r.
  - inversion Hnd as [|? ? Hx Hnd']; subst.
    rewrite set_absent by (apply Hnew; now left).
    rewrite IH; [now rewrite <- app_assoc|assumption|].
    intros y Hy. rewrite get_app, Hnew by now right. simpl.
    destruct (String.eqb (key x) (key y)) eqn:E; [|reflexivity].
    apply String.eqb_eq in E. contradiction Hx. rewrite E.
    now apply in_map.
Qed.

Lemma get_of_pairs {V} (key : V -> string) data x :
  NoDup (map key data) -> In x data ->
  Dict.get (map (fun y => (key y, y)) data) (key x) = Some x.
Proof.
  induction data as [|y data IH]; simpl; [tauto|].
  intros Hnd Hin. inversion Hnd as [|? ? Hy Hnd']; subst.
  destruct Hin as [->|Hin]; [now rewrite String.eqb_refl|].
  destruct (String.eqb (key y) (key x)) eqn:E; [|now apply IH].
  apply String.eqb_eq in E. contradiction Hy. rewrite E. now apply in_map.
Qed.

(** X17. The start-up loop [for x in data: d[key(x)] = x], run on a list
    whose keys are pairwise different and an empty dictionary, keeps every
    entry: the values of the dictionary are the list in its order, the keys
    are the entries' keys, and each entry is found under its key. *)
Theorem load_distinct {V} (key : V -> string) (data : list V) :
  NoDup (map key data) ->
  Dict.values (load key data Dict.empty) = data
  /\ Dict.keys (load key data Dict.empty) = map key data
  /\ forall x, In x data ->
               Dict.get (load key data Dict.empty) (key x) = Some x.
Proof.
  intros Hnd.
  rewrite load_distinct_onto by (assumption || reflexivity).
  unfold Dict.empty, Dict.values, Dict.keys. simpl.
  rewrite !map_map. simpl. rewrite map_id. repeat split.
  intros x Hin. now apply get_of_pairs.
Qed.

Lemma load_distinct_witness :
  Dict.values (products crm_data) = products_data
  /\ Dict.keys (products crm_data) = map Product.serial_number products_data
  /\ forall x, In x products_data ->
               Dict.get (products crm_data) (Product.serial_number x)
               = Some x.
Proof.
  apply (@load_distinct Product.t Product.serial_number products_data).
  simpl. repeat (constructor; [simpl; intuition discriminate|]). constructor.
Defined.

(** ** A record after its creation *)

Lemma create_run st record product :
  Dict.get (products st) (ServiceRecordCreate.serial_number record)
  = Some product ->
  exists created,
    create_service_record record st
    = (inr created,
       mk_CRMData (customers st) (products st)
         (Dict.set (service_records st) (ServiceRecord.record_id created)
                   created))
    /\ ServiceRecord.serial_number created
       = ServiceRecordCreate.serial_number record
    /\ ServiceRecord.customer_id created = Product.customer_id product
    /\ ServiceRecord.status created = "scheduled".
Proof.
  intros Hp. unfold create_service_record. run. rewrite Hp. run.
  match goal with |- exists _, (inr ?r, _) = _ /\ _ => exists r end.
  simpl. auto.
Qed.

(** X18. A record that [create_service_record] has returned can be used
    straight away, in any store: an update under the returned identifier
    does not fail and answers with the created record changed by the
    request, and the listing filtered by the record's serial number, its
    customer and the status scheduled contains the created record. *)
Theorem created_record_is_on_file st record product :
  Dict.get (products st) (ServiceRecordCreate.serial_number record)
  = Some product ->
  exists created st',
    create_service_record record st = (inr created, st')
    /\ (forall update,
          fst (update_service_record (ServiceRecord.record_id created)
                                     update st')
          = inr (apply_update update created))
    /\ exists records,
         fst (get_service_records
                (Some (ServiceRecordCreate.serial_number record))
                (Some (Product.customer_id product))
                (Some ServiceStatus.SCHEDULED) st')
         = inr records
         /\ In created records.
Proof.
  intros Hp.
  destruct (@create_run st record product Hp)
    as (created & Hrun & Hsn & Hcid & Hst).
  eexists. eexists. split; [exact Hrun|]. split.
  - intros update.
    erewrite update_run by (cbn [service_records]; apply get_set_same).
    reflexivity.
  - rewrite get_service_records_run. eexists. split; [reflexivity|].
    apply filter_In. split.
    + eapply get_in_values. cbn [service_records]. apply get_set_same.
    + rewrite Hsn, Hcid, Hst. unfold skips, differs. simpl.
      rewrite !String.eqb_refl. simpl. now rewrite !andb_false_r.
Qed.

Lemma created_record_is_on_file_witness :
  exists created st',
    create_service_record
      (ServiceRecordCreate.make "SN20240006" "battery" "drains fast" "Zhao"
         (mk_datetime (mk_date 2024 11 5) 16 0 0) 30)
      crm_data
    = (inr created, st')
    /\ fst (update_service_record (ServiceRecord.record_id created)
              (ServiceRecordUpdate.make None None None None) st')
       = inr created.
Proof.
  edestruct (@created_record_is_on_file crm_data
               (ServiceRecordCreate.make "SN20240006" "battery" "drains fast"
                  "Zhao" (mk_datetime (mk_date 2024 11 5) 16 0 0) 30))
    as (created & st' & Hrun & Hupd & _).
  - reflexivity.
  - exists created, st'. split; [exact Hrun|].
    rewrite Hupd. reflexivity.
Defined.

(** ** Filters taken together *)

(** X19. The three filters of the listing work independently of each other:
    a record is in the listing for a combination of filters exactly when it
    is in the three listings that apply one of the filters alone. *)
Theorem listing_filters_conjoin st serial_number customer_id status r :
  let listing a b c :=
    match fst (get_service_records a b c st) with
    | inr records => records
    | inl _ => []
    end in
  In r (listing serial_number customer_id status)
  <-> In r (listing serial_number None None)
      /\ In r (listing None customer_id None)
      /\ In r (listing None None status).
Proof.
  intros listing. unfold listing. rewrite !get_service_records_run.
  cbn [fst option_map]. rewrite !filter_In.
  change (skips None) with (fun _ : string => false). cbv beta.
  cbn [negb andb]. rewrite !andb_true_r, !andb_true_iff. tauto.
Qed.
